(** * Semantic analysis and lowering of the kernel language

    A shallow embedding of [python/triton/language/semantic.py]: the
    implicit-conversion rules, broadcasting, casts, binary operators,
    memory, atomic and reduction lowering, each as an executable function
    over an explicit IR builder, followed by the properties proved of them. *)

From Stdlib Require Import ZArith List String Bool Lia.
Import ListNotations.
Local Open Scope string_scope.
Local Open Scope list_scope.
Local Open Scope Z_scope.

(** ** The frontend type model ([core]) *)

Module core.

(** Modelled from the spec: the module [core] ([core.dtype],
    [core.pointer_type], [core.block_type], [core.block] and the constants
    [core.int1] ... [core.float64]) is imported by [semantic.py] but is not
    among the sources.  The kinds, predicates and accessors below follow
    the data model and the type model of the specification; a block type is
    a [dtype] like the others, as [semantic.py] asks [is_block], [scalar]
    and [==] of scalar and block types alike. *)
Inductive SIGNEDNESS : Type := SIGNED | UNSIGNED.

Inductive width : Type := W8 | W16 | W32 | W64.

Definition bits (w : width) : Z :=
  match w with W8 => 8 | W16 => 16 | W32 => 32 | W64 => 64 end.

Inductive dtype : Type :=
| int1
| int_ (bw : width) (sn : SIGNEDNESS)
| float16
| bfloat16
| float32
| float64
| pointer_type (element : dtype) (address_space : Z)
| block_type (element_ty : dtype) (shape : list Z).

Definition int8 := int_ W8 SIGNED.
Definition int16 := int_ W16 SIGNED.
Definition int32 := int_ W32 SIGNED.
Definition int64 := int_ W64 SIGNED.
Definition uint8 := int_ W8 UNSIGNED.
Definition uint16 := int_ W16 UNSIGNED.
Definition uint32 := int_ W32 UNSIGNED.
Definition uint64 := int_ W64 UNSIGNED.

Definition SIGNEDNESS_eqb (a b : SIGNEDNESS) : bool :=
  match a, b with
  | SIGNED, SIGNED | UNSIGNED, UNSIGNED => true
  | _, _ => false
  end.

Definition width_eqb (a b : width) : bool := bits a =? bits b.

Fixpoint shape_eqb (a b : list Z) : bool :=
  match a, b with
  | [], [] => true
  | x :: a, y :: b => (x =? y) && shape_eqb a b
  | _, _ => false
  end.

(** Types are value objects compared structurally. *)
Fixpoint dtype_eqb (a b : dtype) : bool :=
  match a, b with
  | int1, int1 => true
  | int_ w1 s1, int_ w2 s2 => width_eqb w1 w2 && SIGNEDNESS_eqb s1 s2
  | float16, float16 => true
  | bfloat16, bfloat16 => true
  | float32, float32 => true
  | float64, float64 => true
  | pointer_type e1 a1, pointer_type e2 a2 => dtype_eqb e1 e2 && (a1 =? a2)
  | block_type e1 s1, block_type e2 s2 => dtype_eqb e1 e2 && shape_eqb s1 s2
  | _, _ => false
  end.

(** *** Exceptions *)

(** A message is kept as the pieces the source concatenates: literals,
    [ty.repr()] and [str(n)]. *)
Inductive msg_part : Type :=
| Str (s : string)
| Repr (ty : dtype)
| Num (n : Z).

Inductive exn : Type :=
| ValueError (message : list msg_part)
| TypeError (message : list msg_part)
| IncompatibleTypeErrorimpl (type_a type_b : dtype)
| AssertionError
| NameError (name : string)
| AttributeError (attr : string)
| IndexError
| RecursionError.

Inductive result (A : Type) : Type :=
| Return (a : A)
| Raise (e : exn).
Arguments Return {A} a.
Arguments Raise {A} e.

Definition rbind {A B : Type} (r : result A) (k : A -> result B) : result B :=
  match r with
  | Return a => k a
  | Raise e => Raise e
  end.

(** *** Predicates and accessors of [dtype] *)

Definition is_fp16 (t : dtype) : bool :=
  match t with float16 => true | _ => false end.
Definition is_bf16 (t : dtype) : bool :=
  match t with bfloat16 => true | _ => false end.
Definition is_fp32 (t : dtype) : bool :=
  match t with float32 => true | _ => false end.
Definition is_fp64 (t : dtype) : bool :=
  match t with float64 => true | _ => false end.
Definition is_floating (t : dtype) : bool :=
  is_fp16 t || is_bf16 t || is_fp32 t || is_fp64 t.
Definition is_bool (t : dtype) : bool :=
  match t with int1 => true | _ => false end.
Definition is_int (t : dtype) : bool :=
  match t with int1 | int_ _ _ => true | _ => false end.
Definition is_ptr (t : dtype) : bool :=
  match t with pointer_type _ _ => true | _ => false end.

(** Modelled from the spec: [is_block] of the missing [core]; a block has
    rank above 0. *)
Definition is_block (t : dtype) : bool :=
  match t with block_type _ (_ :: _) => true | _ => false end.

(** Modelled from the spec: [int_bitwidth], [int_signedness] and
    [is_int_signed] of the missing [core].  The boolean kind is the 1-bit
    integer and counts among the signed kinds. *)
Definition int_bitwidth (t : dtype) : result Z :=
  match t with
  | int1 => Return 1
  | int_ w _ => Return (bits w)
  | _ => Raise (AttributeError "int_bitwidth")
  end.

Definition int_signedness (t : dtype) : result SIGNEDNESS :=
  match t with
  | int1 => Return SIGNED
  | int_ _ sn => Return sn
  | _ => Raise (AttributeError "int_signedness")
  end.

Definition is_int_signed (t : dtype) : bool :=
  match t with int1 | int_ _ SIGNED => true | _ => false end.

(** Modelled from the spec: [get_fp_mantissa_width] of the missing [core].
    The sources only compare two widths, and the specification fixes the
    order fp16 < bf16 < fp32 < fp64; the values below are ranks in that
    order. *)
Definition get_fp_mantissa_width (t : dtype) : result Z :=
  match t with
  | float16 => Return 1
  | bfloat16 => Return 2
  | float32 => Return 3
  | float64 => Return 4
  | _ => Raise (AttributeError "get_fp_mantissa_width")
  end.

Definition primitive_bitwidth (t : dtype) : result Z :=
  match t with
  | int1 => Return 1
  | int_ w _ => Return (bits w)
  | float16 | bfloat16 => Return 16
  | float32 => Return 32
  | float64 => Return 64
  | _ => Raise (AttributeError "primitive_bitwidth")
  end.

Definition scalar (t : dtype) : dtype :=
  match t with block_type e _ => e | _ => t end.

Definition element (t : dtype) : result dtype :=
  match t with
  | pointer_type e _ => Return e
  | _ => Raise (AttributeError "element")
  end.

Definition address_space (t : dtype) : result Z :=
  match t with
  | pointer_type _ a => Return a
  | _ => Raise (AttributeError "address_space")
  end.

Definition get_block_shapes (t : dtype) : result (list Z) :=
  match t with
  | block_type _ s => Return s
  | _ => Raise (AttributeError "get_block_shapes")
  end.

End core.
Import core.

Declare Scope result_scope.
Delimit Scope result_scope with result.
Notation "x <~ r ;; k" := (rbind r (fun x => k))
  (at level 61, r at next level, right associativity) : result_scope.
Local Open Scope result_scope.

(** ** The IR builder *)

Module ir.

(** Modelled from the spec: the IR and its builder
    ([triton._C.libtriton.triton.ir]) are a compiled module that is not
    among the sources.  An IR value is an opaque handle: a value handed in
    by the caller, a constant, or the result of an instruction of the
    builder; the builder is the sequence of instructions emitted so far,
    one constructor per emission primitive that [semantic.py] calls. *)
Inductive value : Type :=
| arg (n : nat)
| res (n : nat)
| get_null_value (ty : dtype)
| undef_get (ty : dtype)
| constant_float_get (ty : dtype) (x : Z)
| get_int1 (x : bool)
| get_int64 (x : Z).

Module CACHE_MODIFIER.
Inductive t : Type := NONE | CA | CG.
End CACHE_MODIFIER.

Module EVICTION_POLICY.
Inductive t : Type := NORMAL | EVICT_LAST | EVICT_FIRST.
End EVICTION_POLICY.

Module ATOMIC_OP.
Inductive t : Type := MAX | UMAX | MIN | UMIN.
End ATOMIC_OP.

Module REDUCE_OP.
Inductive t : Type := FMIN | MIN | FMAX | MAX | FADD | ADD | XOR.
End REDUCE_OP.

Inductive instr : Type :=
| create_splat (v : value) (shape : list Z)
| create_broadcast (v : value) (shape : list Z)
| create_fp_trunc (v : value) (ty : dtype)
| create_fp_ext (v : value) (ty : dtype)
| create_int_cast (v : value) (ty : dtype) (sign_extend : bool)
| create_fp_to_ui (v : value) (ty : dtype)
| create_fp_to_si (v : value) (ty : dtype)
| create_ui_to_fp (v : value) (ty : dtype)
| create_si_to_fp (v : value) (ty : dtype)
| create_cast_PtrToInt (v : value) (ty : dtype)
| create_int_to_ptr (v : value) (ty : dtype)
| create_bitcast (v : value) (ty : dtype)
| create_gep (ptr : value) (idx : list value)
| create_fadd (a b : value)
| create_add (a b : value)
| create_fdiv (a b : value)
| create_frem (a b : value)
| create_srem (a b : value)
| create_urem (a b : value)
| create_and (a b : value)
| create_fcmpOGE (a b : value)
| create_icmpSGE (a b : value)
| create_icmpUGE (a b : value)
| create_fcmpOLT (a b : value)
| create_icmpSLT (a b : value)
| create_icmpULT (a b : value)
| create_fcmpUNE (a b : value)
| create_icmpNE (a b : value)
| create_load (ptr : value) (cache : CACHE_MODIFIER.t)
    (eviction : EVICTION_POLICY.t) (is_volatile : bool)
| create_masked_load (ptr mask other : value) (cache : CACHE_MODIFIER.t)
    (eviction : EVICTION_POLICY.t) (is_volatile : bool)
| create_atomic_rmw (op : ATOMIC_OP.t) (ptr val mask : value)
| create_select (c x y : value)
| create_reduce (x : value) (op : REDUCE_OP.t) (axis : Z).

Definition builder : Type := list instr.

(** Modelled from the spec: the type objects of the builder.  A frontend
    type reaches the builder through [to_ir], which the instructions above
    record as the frontend type it was given; the one type object that
    [semantic.py] asks of the builder and compares with a frontend type is
    the 1-bit integer type. *)
Inductive type : Type := get_int1_ty.

End ir.

(** Modelled from the spec: [!=] between a [core.dtype] and a type object
    of the builder.  Frontend types are value objects compared with one
    another; a type object of the builder is no frontend type, so the two
    never compare equal. *)
Definition dtype_ne_ir (t : dtype) (ty : ir.type) : bool := true.

(** ** Lowering computations

    A lowering function reads and extends the builder and either returns
    or raises; what was emitted before an exception stays in the builder. *)

Definition M (A : Type) : Type := ir.builder -> result A * ir.builder.

Definition ret {A : Type} (a : A) : M A := fun b => (Return a, b).

Definition raise {A : Type} (e : exn) : M A := fun b => (Raise e, b).

Definition lift {A : Type} (r : result A) : M A := fun b => (r, b).

Definition bind {A B : Type} (m : M A) (k : A -> M B) : M B :=
  fun b =>
    match m b with
    | (Return a, b') => k a b'
    | (Raise e, b') => (Raise e, b')
    end.

(** Emitting an instruction appends it and hands back its result. *)
Definition emit (i : ir.instr) : M ir.value :=
  fun b => (Return (ir.res (List.length b)), b ++ [i]).

Declare Scope lowering_scope.
Delimit Scope lowering_scope with lowering.
Notation "x <- m ;; k" := (bind m (fun x => k))
  (at level 61, m at next level, right associativity) : lowering_scope.
Notation "' pat <- m ;; k" := (bind m (fun x => match x with pat => k end))
  (at level 61, pat pattern, m at next level, right associativity)
  : lowering_scope.
Local Open Scope lowering_scope.

(** ** Python values *)

(** Modelled from the spec: [core.block] and the values of the builder,
    neither among the sources.  A variable of [semantic.py] holds a
    [core.block] (an IR handle paired with its static type), a
    [core.block] built from a handle alone ([core.block(mask_ir)]), or a
    bare IR value as the builder returns it.  A handle is opaque: only a
    block answers [.handle], and only a block built with a type answers
    [.type]. *)
Inductive pyobj : Type :=
| block (handle : ir.value) (type : dtype)
| block1 (handle : ir.value)
| raw (v : ir.value).

Definition type_of (o : pyobj) : M dtype :=
  match o with
  | block _ ty => ret ty
  | _ => raise (AttributeError "type")
  end.

Definition handle_of (o : pyobj) : M ir.value :=
  match o with
  | block h _ | block1 h => ret h
  | raw _ => raise (AttributeError "handle")
  end.

(** Several call sites hand the builder the block itself, not its handle
    ([create_gep(input, [other])], [create_splat(input, shape)],
    [create_reduce(input, ...)]); the builder is taken to accept both and
    the instruction records the IR value underneath. *)
Definition as_ir (o : pyobj) : ir.value :=
  match o with
  | block h _ | block1 h => h
  | raw v => v
  end.

(** [if x:] on an optional argument. *)
Definition truthy {A : Type} (o : option A) : bool :=
  match o with Some _ => true | None => false end.

(** ** The lowering functions of [semantic.py] *)

Module semantic.

(** *** Implicit casting utilities *)

Definition integer_promote_impl (a_ty b_ty : dtype) : result dtype :=
  a_rank <~ int_bitwidth a_ty ;;
  b_rank <~ int_bitwidth b_ty ;;
  a_sn <~ int_signedness a_ty ;;
  b_sn <~ int_signedness b_ty ;;
  if SIGNEDNESS_eqb a_sn b_sn then
    Return (if a_rank >? b_rank then a_ty else b_ty)
  else if SIGNEDNESS_eqb a_sn UNSIGNED then
    Return (if a_rank >=? b_rank then a_ty else b_ty)
  else if SIGNEDNESS_eqb b_sn UNSIGNED then
    Return (if b_rank >=? a_rank then b_ty else a_ty)
  else Raise AssertionError.

Definition different_signedness_message (a_ty b_ty : dtype) : list msg_part :=
  [Str "Cannot use /, #, or % with "; Repr a_ty; Str " and "; Repr b_ty;
   Str " because they have different signedness;this is unlikely to result in a useful answer. Cast them to the same signedness."].

Definition computation_type_impl (a_ty b_ty : dtype) (div_or_mod : bool)
  : result dtype :=
  if is_fp64 a_ty || is_fp64 b_ty then Return float64
  else if is_fp32 a_ty || is_fp32 b_ty then Return float32
  else if is_fp16 a_ty || is_fp16 b_ty then
    (if div_or_mod then Return float32 else Return float16)
  else if negb (is_int a_ty) || negb (is_int b_ty) then Raise AssertionError
  else
    different <~ (if div_or_mod then
                    a_sn <~ int_signedness a_ty ;;
                    b_sn <~ int_signedness b_ty ;;
                    Return (negb (SIGNEDNESS_eqb a_sn b_sn))
                  else Return false) ;;
    if different then
      Raise (ValueError (different_signedness_message a_ty b_ty))
    else integer_promote_impl a_ty b_ty.


(** *** Binary operators *)

Definition check_ptr_type_impl (type_a type_b : dtype) (allow_ptr_a : bool)
  : result unit :=
  if is_ptr type_a then
    if negb allow_ptr_a then Raise (IncompatibleTypeErrorimpl type_a type_b)
    else if is_ptr type_b && negb (dtype_eqb type_a type_b) then
      Raise (IncompatibleTypeErrorimpl type_a type_b)
    else if is_floating type_b then
      Raise (IncompatibleTypeErrorimpl type_a type_b)
    else Return tt
  else Return tt.

(** *** Shape manipulation *)

Definition broadcast_impl_shape (input : pyobj) (shape : list Z) : M pyobj :=
  input_ty <- type_of input ;;
  if negb (is_block input_ty) then
    v <- emit (ir.create_splat (as_ir input) shape) ;;
    ret (raw v)
  else
    src_shape <- lift (get_block_shapes input_ty) ;;
    if negb (Nat.eqb (List.length src_shape) (List.length shape)) then
      raise (ValueError [Str "Cannot broadcast"])
    else if shape_eqb shape src_shape then ret input
    else
      v <- emit (ir.create_broadcast (as_ir input) shape) ;;
      ret (raw v).

Definition incompatible_dimensions_message (i left_ right_ : Z)
  : list msg_part :=
  [Str "Cannot make_shape_compatible: incompatible dimensions at index ";
   Num i; Str ": "; Num left_; Str " and "; Num right_].

(** The loop [for i in range(len(lhs_shape))] of [broadcast_impl_value],
    from axis [i] on. *)
Fixpoint ret_shape_loop (i : Z) (lhs_shape rhs_shape : list Z)
  : result (list Z) :=
  match lhs_shape with
  | [] => Return []
  | left_ :: lhs_rest =>
      match rhs_shape with
      | [] => Raise IndexError
      | right_ :: rhs_rest =>
          if left_ =? 1 then
            ret_shape <~ ret_shape_loop (i + 1) lhs_rest rhs_rest ;;
            Return (right_ :: ret_shape)
          else if right_ =? 1 then
            ret_shape <~ ret_shape_loop (i + 1) lhs_rest rhs_rest ;;
            Return (left_ :: ret_shape)
          else if left_ =? right_ then
            ret_shape <~ ret_shape_loop (i + 1) lhs_rest rhs_rest ;;
            Return (left_ :: ret_shape)
          else Raise (ValueError (incompatible_dimensions_message i left_ right_))
      end
  end.

Definition broadcast_impl_value (lhs rhs : pyobj) : M (pyobj * pyobj) :=
  lhs_ty <- type_of lhs ;;
  rhs_ty <- type_of rhs ;;
  if is_block lhs_ty && negb (is_block rhs_ty) then
    let ret_ty := lhs_ty in
    h <- handle_of rhs ;;
    shapes <- lift (get_block_shapes lhs_ty) ;;
    v <- emit (ir.create_splat h shapes) ;;
    ret (lhs, block v ret_ty)
  else if negb (is_block lhs_ty) && is_block rhs_ty then
    let ret_ty := rhs_ty in
    h <- handle_of lhs ;;
    shapes <- lift (get_block_shapes rhs_ty) ;;
    v <- emit (ir.create_splat h shapes) ;;
    ret (block v ret_ty, rhs)
  else if is_block lhs_ty && is_block rhs_ty then
    lhs_shape <- lift (get_block_shapes lhs_ty) ;;
    rhs_shape <- lift (get_block_shapes rhs_ty) ;;
    if negb (Nat.eqb (List.length lhs_shape) (List.length rhs_shape)) then
      raise (ValueError
        [Str "Cannot make_shape_compatible: blocks must have the same rank"])
    else
      ret_shape <- lift (ret_shape_loop 0 lhs_shape rhs_shape) ;;
      lhs <- (if negb (shape_eqb lhs_shape ret_shape) then
                let ret_ty := block_type (scalar lhs_ty) ret_shape in
                h <- handle_of lhs ;;
                v <- emit (ir.create_broadcast h ret_shape) ;;
                ret (block v ret_ty)
              else ret lhs) ;;
      rhs <- (if negb (shape_eqb rhs_shape ret_shape) then
                let ret_ty := block_type (scalar rhs_ty) ret_shape in
                h <- handle_of rhs ;;
                v <- emit (ir.create_broadcast h ret_shape) ;;
                ret (block v ret_ty)
              else ret rhs) ;;
      ret (lhs, rhs)
  else ret (lhs, rhs).

(** *** Cast

    [cast] calls itself, directly and through [not_equal] and
    [binary_op_type_checking_impl]; the three are written over the
    recursive occurrence [cast] and the knot is tied below. *)

Section with_cast.

Variable cast : pyobj -> dtype -> M pyobj.

Definition binary_op_type_checking_impl_with (lhs rhs : pyobj)
    (allow_lhs_ptr allow_rhs_ptr arithmetic_check div_or_mod : bool)
  : M (pyobj * pyobj) :=
  ' (lhs, rhs) <- broadcast_impl_value lhs rhs ;;
  lhs_ty <- type_of lhs ;;
  let lhs_sca_ty := scalar lhs_ty in
  rhs_ty <- type_of rhs ;;
  let rhs_sca_ty := scalar rhs_ty in
  _ <- lift (check_ptr_type_impl lhs_sca_ty rhs_sca_ty allow_lhs_ptr) ;;
  _ <- lift (check_ptr_type_impl rhs_sca_ty lhs_sca_ty allow_rhs_ptr) ;;
  if arithmetic_check && negb (is_ptr lhs_sca_ty) && negb (is_ptr rhs_sca_ty)
  then
    ret_sca_ty <- lift (computation_type_impl lhs_sca_ty rhs_sca_ty div_or_mod) ;;
    lhs <- cast lhs ret_sca_ty ;;
    rhs <- cast rhs ret_sca_ty ;;
    ret (lhs, rhs)
  else ret (lhs, rhs).

Definition not_equal_with (input other : pyobj) : M pyobj :=
  ' (input, other) <-
    binary_op_type_checking_impl_with input other false false true false ;;
  input_ty <- type_of input ;;
  let scalar_ty := scalar input_ty in
  if is_floating scalar_ty then
    a <- handle_of input ;;
    b <- handle_of other ;;
    v <- emit (ir.create_fcmpUNE a b) ;;
    ret (block v input_ty)
  else if is_int scalar_ty then
    a <- handle_of input ;;
    b <- handle_of other ;;
    v <- emit (ir.create_icmpNE a b) ;;
    ret (block v input_ty)
  else raise AssertionError.

(** What follows the [ptr => int] test of [cast]. *)
Definition cast_tail (input : pyobj) (src_ty dst_ty : dtype) : M pyobj :=
  let src_sca_ty := scalar src_ty in
  let dst_sca_ty := scalar dst_ty in
  if negb (is_ptr src_sca_ty) && is_ptr dst_sca_ty then
    h <- handle_of input ;;
    v <- emit (ir.create_int_to_ptr h dst_ty) ;;
    ret (block v dst_ty)
  else if is_ptr src_sca_ty && is_ptr dst_sca_ty then
    h <- handle_of input ;;
    v <- emit (ir.create_bitcast h dst_ty) ;;
    ret (block v dst_ty)
  else if is_bool dst_sca_ty then
    input <- (if is_ptr src_sca_ty then cast input int64 else ret input) ;;
    let other := ir.get_int64 0 in
    other <- (if is_bool src_ty then
                shapes <- lift (get_block_shapes src_ty) ;;
                emit (ir.create_splat other shapes)
              else ret other) ;;
    h <- handle_of input ;;
    v <- emit (ir.create_icmpNE h other) ;;
    ret (block v dst_ty)
  else raise AssertionError.

(** The body of [cast].  The name [case] of the bf16 branch is bound
    nowhere in the module, and Python looks the callee up before it
    evaluates the arguments.  The sign-extension flag compares the source
    kind, a frontend type, with the builder's 1-bit integer type. *)
Definition cast_body (input : pyobj) (dst_ty : dtype) : M pyobj :=
  src_ty <- type_of input ;;
  dst_ty <- (if is_block src_ty then
               shapes <- lift (get_block_shapes src_ty) ;;
               ret (block_type dst_ty shapes)
             else ret dst_ty) ;;
  if dtype_eqb src_ty dst_ty then ret input
  else
    let src_sca_ty := scalar src_ty in
    let dst_sca_ty := scalar dst_ty in
    if (is_bf16 src_sca_ty && negb (is_fp32 dst_sca_ty))
       || (is_bf16 dst_sca_ty && negb (is_fp32 src_sca_ty))
    then raise (NameError "case")
    else
      truncate_fp <- lift
        (if is_floating src_sca_ty && is_floating dst_sca_ty then
           s <~ get_fp_mantissa_width src_sca_ty ;;
           d <~ get_fp_mantissa_width dst_sca_ty ;;
           Return (s >? d)
         else Return false) ;;
      if truncate_fp then
        h <- handle_of input ;;
        v <- emit (ir.create_fp_trunc h dst_ty) ;;
        ret (block v dst_ty)
      else
        ext_fp <- lift
          (if is_floating src_sca_ty && is_floating dst_sca_ty then
             s <~ get_fp_mantissa_width src_sca_ty ;;
             d <~ get_fp_mantissa_width dst_sca_ty ;;
             Return (s <? d)
           else Return false) ;;
        if ext_fp then
          h <- handle_of input ;;
          v <- emit (ir.create_fp_ext h dst_ty) ;;
          ret (block v dst_ty)
        else
          int_cast <- lift
            (if is_int src_sca_ty && is_int dst_sca_ty then
               sw <~ int_bitwidth src_sca_ty ;;
               dw <~ int_bitwidth dst_sca_ty ;;
               if negb (sw =? dw) then Return true
               else
                 ss <~ int_signedness src_sca_ty ;;
                 ds <~ int_signedness dst_sca_ty ;;
                 Return (negb (SIGNEDNESS_eqb ss ds))
             else Return false) ;;
          if int_cast then
            let sign_extend :=
              is_int_signed src_sca_ty
              && dtype_ne_ir src_sca_ty ir.get_int1_ty in
            h <- handle_of input ;;
            v <- emit (ir.create_int_cast h dst_ty sign_extend) ;;
            ret (block v dst_ty)
          else if is_floating src_sca_ty && is_int dst_sca_ty then
            if is_bool dst_sca_ty then
              h <- handle_of input ;;
              v <- emit (ir.create_fp_to_ui h dst_ty) ;;
              ret (block v dst_ty)
            else
              h <- handle_of input ;;
              v <- emit (ir.create_fp_to_si h dst_ty) ;;
              ret (block v dst_ty)
          else if is_int src_sca_ty && is_floating dst_sca_ty then
            if is_bool src_sca_ty || negb (is_int_signed src_sca_ty) then
              h <- handle_of input ;;
              v <- emit (ir.create_ui_to_fp h dst_ty) ;;
              ret (block v dst_ty)
            else
              h <- handle_of input ;;
              v <- emit (ir.create_si_to_fp h dst_ty) ;;
              ret (block v dst_ty)
          else if is_ptr src_sca_ty && is_int dst_sca_ty then
            bitwidth <- lift (int_bitwidth dst_sca_ty) ;;
            if bitwidth =? 64 then
              h <- handle_of input ;;
              v <- emit (ir.create_cast_PtrToInt h dst_ty) ;;
              ret (block v dst_ty)
            else if bitwidth =? 1 then
              x <- cast input int64 ;;
              not_equal_with x (block (ir.get_int64 0) int64)
            else cast_tail input src_ty dst_ty
          else cast_tail input src_ty dst_ty.

End with_cast.

(** Each level of [fuel] is one nested activation of [cast]; running out
    is Python's [RecursionError].  No cast nests deeper than two
    activations, so the limit chosen does not show in any result. *)
Fixpoint cast_fuel (fuel : nat) (input : pyobj) (dst_ty : dtype) : M pyobj :=
  match fuel with
  | O => raise RecursionError
  | S n => cast_body (cast_fuel n) input dst_ty
  end.

Definition recursion_limit : nat := 8.

Definition cast : pyobj -> dtype -> M pyobj := cast_fuel recursion_limit.

Definition binary_op_type_checking_impl :=
  binary_op_type_checking_impl_with cast.

Definition not_equal := not_equal_with cast.

Definition bitcast (input : pyobj) (dst_ty : dtype) : M pyobj :=
  src_ty <- type_of input ;;
  dst_ty <- (if is_block src_ty then
               shapes <- lift (get_block_shapes src_ty) ;;
               ret (block_type dst_ty shapes)
             else ret dst_ty) ;;
  if dtype_eqb src_ty dst_ty then ret input
  else
    let src_sca_ty := scalar src_ty in
    let dst_sca_ty := scalar dst_ty in
    if is_ptr src_sca_ty || is_ptr dst_sca_ty then cast input dst_ty
    else
      src_bits <- lift (primitive_bitwidth src_sca_ty) ;;
      dst_bits <- lift (primitive_bitwidth dst_sca_ty) ;;
      if negb (src_bits =? dst_bits) then
        raise (ValueError [Str "Cannot bitcast data-type of size ";
                           Num src_bits; Str "to data-type of size ";
                           Num dst_bits])
      else
        h <- handle_of input ;;
        v <- emit (ir.create_bitcast h dst_ty) ;;
        ret (block v dst_ty).

(** *** Arithmetic, bitwise and comparison operators *)

Definition add (input other : pyobj) : M pyobj :=
  ' (input, other) <-
    binary_op_type_checking_impl input other true true true false ;;
  input_ty <- type_of input ;;
  let input_scalar_ty := scalar input_ty in
  other_ty <- type_of other ;;
  let other_scalar_ty := scalar other_ty in
  ' (input, other) <-
    ret (if is_ptr other_scalar_ty && negb (is_ptr input_scalar_ty)
         then (other, input) else (input, other)) ;;
  if is_ptr input_scalar_ty then
    v <- emit (ir.create_gep (as_ir input) [as_ir other]) ;;
    ty <- type_of input ;;
    ret (block v ty)
  else if is_floating input_scalar_ty then
    v <- emit (ir.create_fadd (as_ir input) (as_ir other)) ;;
    ty <- type_of input ;;
    ret (block v ty)
  else if is_int input_scalar_ty then
    v <- emit (ir.create_add (as_ir input) (as_ir other)) ;;
    ty <- type_of input ;;
    ret (block v ty)
  else raise AssertionError.

Definition truediv (input other : pyobj) : M pyobj :=
  ' (input, other) <-
    binary_op_type_checking_impl input other false false true true ;;
  input_ty <- type_of input ;;
  let input_scalar_ty := scalar input_ty in
  other_ty <- type_of other ;;
  let other_scalar_ty := scalar other_ty in
  ' (input, other) <-
    (if is_floating input_scalar_ty && is_int other_scalar_ty then
       other <- cast other input_scalar_ty ;;
       ret (input, other)
     else if is_int input_scalar_ty && is_floating other_scalar_ty then
       input <- cast input other_scalar_ty ;;
       ret (input, other)
     else if is_int input_scalar_ty && is_int other_scalar_ty then
       input <- cast input float32 ;;
       other <- cast other float32 ;;
       ret (input, other)
     else if is_floating input_scalar_ty && is_floating other_scalar_ty then
       iw <- lift (get_fp_mantissa_width input_scalar_ty) ;;
       ow <- lift (get_fp_mantissa_width other_scalar_ty) ;;
       if iw >? ow then
         other <- cast other input_scalar_ty ;;
         ret (input, other)
       else
         input <- cast input other_scalar_ty ;;
         ret (input, other)
     else raise AssertionError) ;;
  a <- handle_of input ;;
  b <- handle_of other ;;
  v <- emit (ir.create_fdiv a b) ;;
  ty <- type_of input ;;
  ret (block v ty).

Definition mod_different_signedness_message (scalar_ty other_scalar_ty : dtype)
  : list msg_part :=
  [Str "Cannot mod "; Repr scalar_ty; Str " by "; Repr other_scalar_ty;
   Str " because they have different signedness;this is unlikely to result in a useful answer. Cast them to the same signedness."].

(** [mod] of the source; [mod] is reserved by the arithmetic notations. *)
Definition mod_ (input other : pyobj) : M pyobj :=
  ' (input, other) <-
    binary_op_type_checking_impl input other false false true true ;;
  input_ty <- type_of input ;;
  let scalar_ty := scalar input_ty in
  other_ty <- type_of other ;;
  let other_scalar_ty := scalar other_ty in
  if is_floating scalar_ty then
    a <- handle_of input ;;
    b <- handle_of other ;;
    v <- emit (ir.create_frem a b) ;;
    ret (block v input_ty)
  else if is_int scalar_ty then
    sn <- lift (int_signedness scalar_ty) ;;
    other_sn <- lift (int_signedness other_scalar_ty) ;;
    if negb (SIGNEDNESS_eqb sn other_sn) then
      raise (ValueError
               (mod_different_signedness_message scalar_ty other_scalar_ty))
    else if is_int_signed scalar_ty then
      a <- handle_of input ;;
      b <- handle_of other ;;
      v <- emit (ir.create_srem a b) ;;
      ret (block v input_ty)
    else
      a <- handle_of input ;;
      b <- handle_of other ;;
      v <- emit (ir.create_urem a b) ;;
      ret (block v input_ty)
  else raise AssertionError.

Definition bitwise_op_type_checking_impl (input other : pyobj)
  : M (pyobj * pyobj) :=
  ' (input, other) <-
    binary_op_type_checking_impl input other false false false false ;;
  input_ty <- type_of input ;;
  let input_sca_ty := scalar input_ty in
  other_ty <- type_of other ;;
  let other_sca_ty := scalar other_ty in
  if negb (is_int input_sca_ty) || negb (is_int other_sca_ty) then
    raise (IncompatibleTypeErrorimpl input_sca_ty other_sca_ty)
  else
    ret_sca_ty <- lift (integer_promote_impl input_sca_ty other_sca_ty) ;;
    input <- (if negb (dtype_eqb ret_sca_ty input_sca_ty)
              then cast input ret_sca_ty else ret input) ;;
    other <- (if negb (dtype_eqb ret_sca_ty other_sca_ty)
              then cast other ret_sca_ty else ret other) ;;
    ret (input, other).

Definition and_ (input other : pyobj) : M pyobj :=
  ' (input, other) <- bitwise_op_type_checking_impl input other ;;
  a <- handle_of input ;;
  b <- handle_of other ;;
  v <- emit (ir.create_and a b) ;;
  ty <- type_of input ;;
  ret (block v ty).

(** [greater_equal] returns what the builder returns; [less_than] wraps it
    in a block of the operands' type. *)
Definition greater_equal (input other : pyobj) : M pyobj :=
  ' (input, other) <-
    binary_op_type_checking_impl input other false false true false ;;
  input_ty <- type_of input ;;
  let scalar_ty := scalar input_ty in
  if is_floating scalar_ty then
    v <- emit (ir.create_fcmpOGE (as_ir input) (as_ir other)) ;;
    ret (raw v)
  else if is_int scalar_ty then
    if is_int_signed scalar_ty then
      v <- emit (ir.create_icmpSGE (as_ir input) (as_ir other)) ;;
      ret (raw v)
    else
      v <- emit (ir.create_icmpUGE (as_ir input) (as_ir other)) ;;
      ret (raw v)
  else raise AssertionError.

Definition less_than (input other : pyobj) : M pyobj :=
  ' (input, other) <-
    binary_op_type_checking_impl input other false false true false ;;
  input_ty <- type_of input ;;
  let scalar_ty := scalar input_ty in
  if is_floating scalar_ty then
    a <- handle_of input ;;
    b <- handle_of other ;;
    v <- emit (ir.create_fcmpOLT a b) ;;
    ret (block v input_ty)
  else if is_int scalar_ty then
    if is_int_signed scalar_ty then
      a <- handle_of input ;;
      b <- handle_of other ;;
      v <- emit (ir.create_icmpSLT a b) ;;
      ret (block v input_ty)
    else
      a <- handle_of input ;;
      b <- handle_of other ;;
      v <- emit (ir.create_icmpULT a b) ;;
      ret (block v input_ty)
  else raise AssertionError.

(** *** Memory operators *)

(** [if s:] on a string argument that may be [None]. *)
Definition truthy_str (s : option string) : bool :=
  match s with
  | Some s => negb (String.eqb s "")
  | None => false
  end.

Definition load (ptr : pyobj) (mask other : option pyobj)
    (cache_modifier eviction_policy : option string) (is_volatile : bool)
  : M pyobj :=
  ptr_ty <- type_of ptr ;;
  if negb (is_ptr (scalar ptr_ty)) then
    raise (ValueError [Str "Pointer argument of load instruction is ";
                       Repr ptr_ty])
  else
    ' (mask, other) <-
      (if is_block ptr_ty then
         mask <- match mask with
                 | Some m =>
                     shapes <- lift (get_block_shapes ptr_ty) ;;
                     m <- broadcast_impl_shape m shapes ;;
                     ret (Some m)
                 | None => ret None
                 end ;;
         other <- match other with
                  | Some o =>
                      shapes <- lift (get_block_shapes ptr_ty) ;;
                      o <- broadcast_impl_shape o shapes ;;
                      ret (Some o)
                  | None => ret None
                  end ;;
         ret (mask, other)
       else ret (mask, other)) ;;
    other <- match other with
             | Some o =>
                 elt <- lift (element (scalar ptr_ty)) ;;
                 o <- cast o elt ;;
                 ret (Some o)
             | None => ret None
             end ;;
    let ptr_ty := scalar ptr_ty in
    elt_ty <- lift (element ptr_ty) ;;
    ' (elt_ty, ptr) <-
      (if dtype_eqb elt_ty int1 then
         let elt_ty := int8 in
         space <- lift (address_space ptr_ty) ;;
         let ptr_ty := pointer_type elt_ty space in
         ptr <- cast ptr ptr_ty ;;
         ret (elt_ty, ptr)
       else ret (elt_ty, ptr)) ;;
    cache <-
      (if truthy_str cache_modifier then
         match cache_modifier with
         | Some ".ca" => ret ir.CACHE_MODIFIER.CA
         | Some ".cg" => ret ir.CACHE_MODIFIER.CG
         | Some s =>
             raise (ValueError [Str "Cache modifier "; Str s;
                                Str " not supported"])
         | None => ret ir.CACHE_MODIFIER.NONE
         end
       else ret ir.CACHE_MODIFIER.NONE) ;;
    eviction <-
      (if truthy_str eviction_policy then
         match eviction_policy with
         | Some "evict_last" => ret ir.EVICTION_POLICY.EVICT_LAST
         | Some "evict_first" => ret ir.EVICTION_POLICY.EVICT_FIRST
         | Some s =>
             raise (ValueError [Str "Eviction policy "; Str s;
                                Str " not supported"])
         | None => ret ir.EVICTION_POLICY.NORMAL
         end
       else ret ir.EVICTION_POLICY.NORMAL) ;;
    ty <- type_of ptr ;;
    if negb (is_block ty) then raise AssertionError
    else
      shape <- lift (get_block_shapes ty) ;;
      let dst_ty := block_type elt_ty shape in
      if negb (truthy mask) && negb (truthy other) then
        p <- handle_of ptr ;;
        v <- emit (ir.create_load p cache eviction is_volatile) ;;
        ret (block v dst_ty)
      else if negb (truthy mask) then
        raise (ValueError [Str "`other` cannot be provided without `mask`"])
      else
        other <-
          match other with
          | Some o => ret o
          | None =>
              let other_ir := ir.undef_get elt_ty in
              other_ir <- (if is_block ty then
                             emit (ir.create_splat other_ir shape)
                           else ret other_ir) ;;
              (* [other = core.block(other_it, dst_ty)]: no [other_it] *)
              raise (NameError "other_it")
          end ;;
        p <- handle_of ptr ;;
        m <- match mask with
             | Some m => handle_of m
             | None => raise (AttributeError "handle")
             end ;;
        o <- handle_of other ;;
        v <- emit (ir.create_masked_load p m o cache eviction is_volatile) ;;
        ret (block v dst_ty).

(** *** Indexing *)

Definition where_ (condition x y : pyobj) : M pyobj :=
  condition <- cast condition int1 ;;
  condition_ty <- type_of condition ;;
  ' (x, y) <-
    (if is_block condition_ty then
       shapes <- lift (get_block_shapes condition_ty) ;;
       x <- broadcast_impl_shape x shapes ;;
       shapes <- lift (get_block_shapes condition_ty) ;;
       y <- broadcast_impl_shape y shapes ;;
       ret (x, y)
     else ret (x, y)) ;;
  x_type <- type_of x ;;
  let x_ty := scalar x_type in
  y_type <- type_of y ;;
  let y_ty := scalar y_type in
  ty <- lift (computation_type_impl x_ty y_ty false) ;;
  x <- cast x ty ;;
  y <- cast y ty ;;
  c <- handle_of condition ;;
  a <- handle_of x ;;
  b <- handle_of y ;;
  v <- emit (ir.create_select c a b) ;;
  ret (block v ty).

(** *** Atomics *)

Definition atom_red_typechecking_impl (ptr val : pyobj) (mask : option pyobj)
  : M (pyobj * pyobj * pyobj) :=
  ptr_ty <- type_of ptr ;;
  if negb (is_ptr (scalar ptr_ty)) then
    raise (ValueError [Str "Pointer argument of store instruction is ";
                       Repr ptr_ty])
  else
    ' (mask, val) <-
      (if is_block ptr_ty then
         mask <- match mask with
                 | Some m =>
                     shapes <- lift (get_block_shapes ptr_ty) ;;
                     m <- broadcast_impl_shape m shapes ;;
                     ret (Some m)
                 | None => ret None
                 end ;;
         shapes <- lift (get_block_shapes ptr_ty) ;;
         val <- broadcast_impl_shape val shapes ;;
         ret (mask, val)
       else ret (mask, val)) ;;
    elt <- lift (element (scalar ptr_ty)) ;;
    val <- cast val elt ;;
    mask <- match mask with
            | Some m => ret m
            | None =>
                let mask_ir := ir.get_int1 true in
                mask_ir <- (if is_block ptr_ty then
                              shapes <- lift (get_block_shapes ptr_ty) ;;
                              emit (ir.create_splat mask_ir shapes)
                            else ret mask_ir) ;;
                ret (block1 mask_ir)
            end ;;
    ret (ptr, val, mask).

Definition atomic_max (ptr val : pyobj) (mask : option pyobj) : M pyobj :=
  ' (ptr, val, mask) <- atom_red_typechecking_impl ptr val mask ;;
  val_ty <- type_of val ;;
  let sca_ty := scalar val_ty in
  if is_int sca_ty then
    if is_int_signed sca_ty then
      p <- handle_of ptr ;;
      x <- handle_of val ;;
      m <- handle_of mask ;;
      v <- emit (ir.create_atomic_rmw ir.ATOMIC_OP.MAX p x m) ;;
      ret (block v val_ty)
    else
      p <- handle_of ptr ;;
      x <- handle_of val ;;
      m <- handle_of mask ;;
      v <- emit (ir.create_atomic_rmw ir.ATOMIC_OP.UMAX p x m) ;;
      ret (block v val_ty)
  else
    i_val <- bitcast val int32 ;;
    i_ptr <- bitcast ptr (pointer_type int32 1) ;;
    pos <- greater_equal val (block (ir.constant_float_get sca_ty 0) sca_ty) ;;
    neg <- less_than val (block (ir.constant_float_get sca_ty 0) sca_ty) ;;
    pos_mask <- and_ mask pos ;;
    pos_mask <- handle_of pos_mask ;;
    pos_ret <- emit (ir.create_atomic_rmw ir.ATOMIC_OP.MAX
                       (as_ir i_ptr) (as_ir i_val) pos_mask) ;;
    neg_mask <- and_ mask neg ;;
    neg_mask <- handle_of neg_mask ;;
    neg_ret <- emit (ir.create_atomic_rmw ir.ATOMIC_OP.UMIN
                       (as_ir i_ptr) (as_ir i_val) neg_mask) ;;
    where_ pos (raw pos_ret) (raw neg_ret).

(** *** Reductions *)

Definition reduce_impl (input : pyobj) (axis : Z) (name : string)
    (FLOAT_OP INT_OP : ir.REDUCE_OP.t) : M pyobj :=
  input_ty <- type_of input ;;
  let scalar_ty := scalar input_ty in
  widen <- lift (if is_int scalar_ty then
                   w <~ int_bitwidth scalar_ty ;; Return (w <=? 32)
                 else Return false) ;;
  input <- (if widen then cast input int32 else ret input) ;;
  if is_floating scalar_ty then
    v <- emit (ir.create_reduce (as_ir input) FLOAT_OP axis) ;;
    ret (raw v)
  else if is_int scalar_ty then
    v <- emit (ir.create_reduce (as_ir input) INT_OP axis) ;;
    ret (raw v)
  else raise AssertionError.

Definition min (input : pyobj) (axis : Z) : M pyobj :=
  reduce_impl input axis "min" ir.REDUCE_OP.FMIN ir.REDUCE_OP.MIN.

Definition max (input : pyobj) (axis : Z) : M pyobj :=
  reduce_impl input axis "max" ir.REDUCE_OP.FMAX ir.REDUCE_OP.MAX.

Definition sum (input : pyobj) (axis : Z) : M pyobj :=
  reduce_impl input axis "sum" ir.REDUCE_OP.FADD ir.REDUCE_OP.ADD.

Definition xor_sum (input : pyobj) (axis : Z) : M pyobj :=
  input_ty <- type_of input ;;
  let scalar_ty := scalar input_ty in
  if negb (is_int scalar_ty) then
    raise (ValueError [Str "xor_sum only supported for integers"])
  else reduce_impl input axis "sum" ir.REDUCE_OP.XOR ir.REDUCE_OP.XOR.

End semantic.
Import semantic.

(** ** Outcomes

    The class of an exception, and a result read up to the message of the
    exception it raises. *)

Definition exn_class (e : exn) : string :=
  match e with
  | ValueError _ => "ValueError"
  | TypeError _ => "TypeError"
  | IncompatibleTypeErrorimpl _ _ => "IncompatibleTypeErrorimpl"
  | AssertionError => "AssertionError"
  | NameError _ => "NameError"
  | AttributeError _ => "AttributeError"
  | IndexError => "IndexError"
  | RecursionError => "RecursionError"
  end.

Definition outcome {A : Type} (r : result A) : A + string :=
  match r with
  | Return a => inl a
  | Raise e => inr (exn_class e)
  end.

(** The type of a value of kind [k] and shape [sh]: the kind itself at
    rank 0, a block type above. *)
Definition tensor (k : dtype) (sh : list Z) : dtype :=
  match sh with
  | [] => k
  | _ :: _ => block_type k sh
  end.


(** ** Vocabulary of the statements *)

(** A kind: a type that is not a block type. *)
Definition is_kind (k : dtype) : bool :=
  match k with block_type _ _ => false | _ => true end.

(** The flag [cast] gives an integer conversion from kind [src]: set for
    every signed source, the boolean included. *)
Definition sign_extend_of (src : dtype) : bool :=
  match src with
  | int1 | int_ _ SIGNED => true
  | _ => false
  end.

(** The instruction [cast] emits from the integer kind [src] to a
    floating kind. *)
Definition int_to_fp (src : dtype) (v : ir.value) (ty : dtype) : ir.instr :=
  if is_bool src || negb (is_int_signed src)
  then ir.create_ui_to_fp v ty else ir.create_si_to_fp v ty.

(** What [cast] emits to bring a value [h] of integer kind [src] and shape
    [sh] to the integer kind [c], and the IR value that then stands for it
    when the builder held [n] instructions before. *)
Definition promote_instr (src c : dtype) (h : ir.value) (sh : list Z)
  : list ir.instr :=
  if dtype_eqb src c then []
  else [ir.create_int_cast h (tensor c sh) (sign_extend_of src)].

Definition promoted (src c : dtype) (h : ir.value) (n : nat) : ir.value :=
  if dtype_eqb src c then h else ir.res n.

Definition same_signedness (a b : dtype) : bool :=
  match int_signedness a, int_signedness b with
  | Return x, Return y => SIGNEDNESS_eqb x y
  | _, _ => false
  end.

Definition promoted_type (a b : dtype) : dtype :=
  match integer_promote_impl a b with
  | Return c => c
  | Raise _ => a
  end.

(** What [broadcast_impl_value] emits to bring a block [h] of shape [src]
    to the shape [shape], and the IR value that then stands for it. *)
Definition broadcast_instr (src shape : list Z) (h : ir.value)
  : list ir.instr :=
  if shape_eqb src shape then [] else [ir.create_broadcast h shape].

Definition broadcasted (src shape : list Z) (h : ir.value) (n : nat)
  : ir.value :=
  if shape_eqb src shape then h else ir.res n.

(** *** Shape resolution in the words of the specification

    Over shapes of equal rank: on each axis, if either side is 1 take the
    other, if both are equal take that value, else fail naming the axis and
    both sizes; unequal rank always fails. *)
Definition compatible_axis (a b : Z) : bool :=
  (a =? 1) || (b =? 1) || (a =? b).

Definition resolve_axis (a b : Z) : Z :=
  if a =? 1 then b else if b =? 1 then a else a.

Fixpoint offending_axis (i : Z) (shape_a shape_b : list Z)
  : option (Z * Z * Z) :=
  match shape_a, shape_b with
  | a :: shape_a, b :: shape_b =>
      if compatible_axis a b then offending_axis (i + 1) shape_a shape_b
      else Some (i, a, b)
  | _, _ => None
  end.

Definition shape_compatible (shape_a shape_b : list Z) : result (list Z) :=
  if negb (Nat.eqb (List.length shape_a) (List.length shape_b)) then
    Raise (ValueError
             [Str "Cannot make_shape_compatible: blocks must have the same rank"])
  else
    match offending_axis 0 shape_a shape_b with
    | Some (i, a, b) =>
        Raise (ValueError (incompatible_dimensions_message i a b))
    | None =>
        Return (map (fun ab => resolve_axis (fst ab) (snd ab))
                    (combine shape_a shape_b))
    end.

(** ** Vocabulary of further statements *)

(** An integer or floating kind. *)
Definition plain_kind (k : dtype) : bool := is_int k || is_floating k.

(** The test of the bf16 branch of [cast], on the two kinds. *)
Definition through_float32 (a k : dtype) : bool :=
  (is_bf16 a && negb (is_fp32 k)) || (is_bf16 k && negb (is_fp32 a)).

Definition fp_rank (k : dtype) : Z :=
  match get_fp_mantissa_width k with
  | Return w => w
  | Raise _ => 0
  end.

(** *** The conversions between plain kinds

    Float to float: truncation when the destination has the lower mantissa
    width, extension otherwise.  Integer to integer: a bit-width
    conversion that sign-extends a signed source, the boolean included,
    and zero-extends an unsigned one.  Float to integer: the unsigned
    conversion for a boolean destination, the signed one otherwise.
    Integer to float: the unsigned conversion for a boolean or unsigned
    source, the signed one otherwise. *)
Definition conversion (a k : dtype) (v : ir.value) (ty : dtype) : ir.instr :=
  if is_floating a && is_floating k then
    if fp_rank a >? fp_rank k then ir.create_fp_trunc v ty
    else ir.create_fp_ext v ty
  else if is_int a && is_int k then
    ir.create_int_cast v ty (sign_extend_of a)
  else if is_floating a then
    if is_bool k then ir.create_fp_to_ui v ty else ir.create_fp_to_si v ty
  else int_to_fp a v ty.

(** What a cast from kind [a] to kind [k] emits for the value [h] of shape
    [sh], and the IR value that then stands for it when the builder held
    [n] instructions before. *)
Definition cast_instr (a k : dtype) (h : ir.value) (sh : list Z)
  : list ir.instr :=
  if dtype_eqb a k then [] else [conversion a k h (tensor k sh)].

Definition cast_value (a k : dtype) (h : ir.value) (n : nat) : ir.value :=
  if dtype_eqb a k then h else ir.res n.

(** The storage width of a plain kind, 0 for the other types. *)
Definition storage_bits (k : dtype) : Z :=
  match primitive_bitwidth k with
  | Return w => w
  | Raise _ => 0
  end.

(** The static type a value carries, if it carries one. *)
Definition static_type (o : pyobj) : option dtype :=
  match o with
  | block _ ty => Some ty
  | _ => None
  end.

(** The cache modifiers and eviction policies that [load] recognises,
    with the hint each stands for. *)
Definition cache_modifiers : list (option string * ir.CACHE_MODIFIER.t) :=
  [(None, ir.CACHE_MODIFIER.NONE); (Some "", ir.CACHE_MODIFIER.NONE);
   (Some ".ca", ir.CACHE_MODIFIER.CA); (Some ".cg", ir.CACHE_MODIFIER.CG)].

Definition eviction_policies : list (option string * ir.EVICTION_POLICY.t) :=
  [(None, ir.EVICTION_POLICY.NORMAL); (Some "", ir.EVICTION_POLICY.NORMAL);
   (Some "evict_last", ir.EVICTION_POLICY.EVICT_LAST);
   (Some "evict_first", ir.EVICTION_POLICY.EVICT_FIRST)].
(** * Properties *)

(** ** Structural equality *)

Lemma SIGNEDNESS_eqb_eq (a b : SIGNEDNESS) :
  SIGNEDNESS_eqb a b = true <-> a = b.
Proof. destruct a, b; simpl; split; congruence. Qed.

Lemma width_eqb_eq (a b : width) : width_eqb a b = true <-> a = b.
Proof. destruct a, b; unfold width_eqb; simpl; split; congruence. Qed.

Lemma shape_eqb_eq (a b : list Z) : shape_eqb a b = true <-> a = b.
Proof.
  revert b; induction a as [|x a IH]; intros [|y b]; simpl;
    try (split; congruence).
  rewrite andb_true_iff, Z.eqb_eq, IH. split.
  - intros [-> ->]; reflexivity.
  - intros H; injection H; auto.
Qed.

Lemma shape_eqb_refl (a : list Z) : shape_eqb a a = true.
Proof. apply shape_eqb_eq; reflexivity. Qed.

Lemma dtype_eqb_eq (a b : dtype) : dtype_eqb a b = true <-> a = b.
Proof.
  revert b; induction a as [| w s | | | | | e IH asp | e IH sh];
    intros [| w' s' | | | | | e' asp' | e' sh']; simpl;
    try (split; congruence).
  - rewrite andb_true_iff, width_eqb_eq, SIGNEDNESS_eqb_eq. split.
    + intros [-> ->]; reflexivity.
    + intros H; injection H; auto.
  - rewrite andb_true_iff, IH, Z.eqb_eq. split.
    + intros [-> ->]; reflexivity.
    + intros H; injection H; auto.
  - rewrite andb_true_iff, IH, shape_eqb_eq. split.
    + intros [-> ->]; reflexivity.
    + intros H; injection H; auto.
Qed.

Lemma dtype_eqb_refl (a : dtype) : dtype_eqb a a = true.
Proof. apply dtype_eqb_eq; reflexivity. Qed.

Lemma dtype_eqb_neq (a b : dtype) : a <> b -> dtype_eqb a b = false.
Proof.
  intros H; destruct (dtype_eqb a b) eqn:E; [|reflexivity].
  apply dtype_eqb_eq in E; contradiction.
Qed.

(** ** The conversion engine *)

(** C2 (commutativity of the computation type).  [computation_type_impl] gives the same outcome on [(a, b)] and on
    [(b, a)], for every pair of types and both values of [div_or_mod]: the
    same kind, or an exception of the same class. *)
Theorem computation_type_impl_comm (a b : dtype) (div_or_mod : bool) :
  outcome (computation_type_impl a b div_or_mod)
  = outcome (computation_type_impl b a div_or_mod).
Proof.
  destruct a as [| wa sa | | | | | ea aa | ea sha],
           b as [| wb sb | | | | | eb ab | eb shb], div_or_mod;
    try reflexivity;
    try (destruct wa, sa; reflexivity);
    try (destruct wb, sb; reflexivity);
    destruct wa, sa, wb, sb; reflexivity.
Qed.

(** ** Types of values *)

Lemma is_int_kind (k : dtype) : is_int k = true -> is_kind k = true.
Proof. destruct k; simpl; congruence. Qed.

Lemma scalar_tensor (k : dtype) (sh : list Z) :
  is_kind k = true -> scalar (tensor k sh) = k.
Proof. destruct sh; [destruct k; simpl; congruence | reflexivity]. Qed.

Lemma is_block_tensor (k : dtype) (sh : list Z) :
  is_kind k = true ->
  is_block (tensor k sh) = match sh with [] => false | _ => true end.
Proof. destruct sh; [destruct k; simpl; congruence | reflexivity]. Qed.

(** ** Broadcasting of operands of one shape *)

Lemma ret_shape_loop_same (sh : list Z) (i : Z) :
  ret_shape_loop i sh sh = Return sh.
Proof.
  revert i; induction sh as [|z sh IH]; intros i; simpl; [reflexivity|].
  rewrite IH; simpl.
  destruct (z =? 1) eqn:E1; [apply Z.eqb_eq in E1; subst; reflexivity|].
  rewrite Z.eqb_refl; reflexivity.
Qed.

Lemma broadcast_impl_value_same_shape (a b : dtype) (sh : list Z)
    (hl hr : ir.value) (st : ir.builder) :
  is_kind a = true -> is_kind b = true ->
  broadcast_impl_value (block hl (tensor a sh)) (block hr (tensor b sh)) st
  = (Return (block hl (tensor a sh), block hr (tensor b sh)), st).
Proof.
  intros Ha Hb.
  unfold broadcast_impl_value, bind; cbn [type_of ret].
  rewrite !is_block_tensor by assumption.
  destruct sh as [|z sh]; [reflexivity|].
  cbn [tensor get_block_shapes lift negb andb].
  rewrite Nat.eqb_refl; cbn [negb].
  rewrite ret_shape_loop_same, shape_eqb_refl; reflexivity.
Qed.

(** ** Casts of integer operands *)

Lemma cast_body_same (rec : pyobj -> dtype -> M pyobj) (k : dtype)
    (sh : list Z) (h : ir.value) (st : ir.builder) :
  is_kind k = true ->
  cast_body rec (block h (tensor k sh)) k st
  = (Return (block h (tensor k sh)), st).
Proof.
  intros Hk. unfold cast_body, bind; cbn [type_of ret].
  rewrite is_block_tensor by assumption.
  destruct sh as [|z sh]; cbn [tensor get_block_shapes lift ret];
    rewrite dtype_eqb_refl; reflexivity.
Qed.

Lemma cast_body_int_int (rec : pyobj -> dtype -> M pyobj) (a c : dtype)
    (sh : list Z) (h : ir.value) (st : ir.builder) :
  is_int a = true -> is_int c = true -> a <> c ->
  cast_body rec (block h (tensor a sh)) c st
  = (Return (block (ir.res (List.length st)) (tensor c sh)),
     st ++ [ir.create_int_cast h (tensor c sh) (sign_extend_of a)]).
Proof.
  intros Ha Hc Hne.
  destruct a as [| wa sa | | | | | ea aa | ea sha]; try discriminate Ha;
    destruct c as [| wc sc | | | | | ec ac | ec shc]; try discriminate Hc;
    try congruence.
  - destruct sh, wc, sc; reflexivity.
  - destruct sh, wa, sa; reflexivity.
  - destruct wa, sa, wc, sc; try congruence; destruct sh; reflexivity.
Qed.

Lemma cast_body_int_float32 (rec : pyobj -> dtype -> M pyobj) (c : dtype)
    (sh : list Z) (h : ir.value) (st : ir.builder) :
  is_int c = true ->
  cast_body rec (block h (tensor c sh)) float32 st
  = (Return (block (ir.res (List.length st)) (tensor float32 sh)),
     st ++ [int_to_fp c h (tensor float32 sh)]).
Proof.
  intros Hc.
  destruct c as [| wc sc | | | | | ec ac | ec shc]; try discriminate Hc.
  - destruct sh; reflexivity.
  - destruct sh, wc, sc; reflexivity.
Qed.

Lemma cast_unfold (input : pyobj) (dst_ty : dtype) :
  cast input dst_ty = cast_body (cast_fuel (pred recursion_limit)) input dst_ty.
Proof. reflexivity. Qed.

Lemma cast_promote (a c : dtype) (sh : list Z) (h : ir.value)
    (st : ir.builder) :
  is_int a = true -> is_int c = true ->
  cast (block h (tensor a sh)) c st
  = (Return (block (promoted a c h (List.length st)) (tensor c sh)),
     st ++ promote_instr a c h sh).
Proof.
  intros Ha Hc. rewrite cast_unfold. unfold promoted, promote_instr.
  destruct (dtype_eqb a c) eqn:E.
  - apply dtype_eqb_eq in E; subst c.
    rewrite cast_body_same by (apply is_int_kind; assumption).
    rewrite app_nil_r; reflexivity.
  - apply cast_body_int_int; try assumption.
    intros ->; rewrite dtype_eqb_refl in E; discriminate.
Qed.

(** A boolean source is sign-extended like every signed source: the test
    of the flag compares the frontend kind with a type object of the
    builder, which no frontend kind equals. *)
Lemma cast_int1_sign_extends (w : width) (sn : SIGNEDNESS) (sh : list Z)
    (h : ir.value) (st : ir.builder) :
  cast (block h (tensor int1 sh)) (int_ w sn) st
  = (Return (block (ir.res (List.length st)) (tensor (int_ w sn) sh)),
     st ++ [ir.create_int_cast h (tensor (int_ w sn) sh) true]).
Proof. rewrite cast_promote by reflexivity. reflexivity. Qed.

Lemma cast_int_float32 (c : dtype) (sh : list Z) (h : ir.value)
    (st : ir.builder) :
  is_int c = true ->
  cast (block h (tensor c sh)) float32 st
  = (Return (block (ir.res (List.length st)) (tensor float32 sh)),
     st ++ [int_to_fp c h (tensor float32 sh)]).
Proof. intros Hc. rewrite cast_unfold. apply cast_body_int_float32, Hc. Qed.

(** ** Integer promotion *)

Lemma integer_promote_impl_int (a b : dtype) :
  is_int a = true -> is_int b = true ->
  integer_promote_impl a b = Return (promoted_type a b)
  /\ is_int (promoted_type a b) = true.
Proof.
  intros Ha Hb.
  destruct a as [| wa sa | | | | | ea aa | ea sha]; try discriminate Ha;
    destruct b as [| wb sb | | | | | eb ab | eb shb]; try discriminate Hb.
  - split; reflexivity.
  - destruct wb, sb; split; reflexivity.
  - destruct wa, sa; split; reflexivity.
  - destruct wa, sa, wb, sb; split; reflexivity.
Qed.

Lemma computation_type_impl_int (a b : dtype) (div_or_mod : bool) :
  is_int a = true -> is_int b = true ->
  computation_type_impl a b div_or_mod
  = if div_or_mod && negb (same_signedness a b)
    then Raise (ValueError (different_signedness_message a b))
    else Return (promoted_type a b).
Proof.
  intros Ha Hb.
  destruct (integer_promote_impl_int a b Ha Hb) as [Hp _].
  unfold computation_type_impl, same_signedness. rewrite Hp.
  destruct a as [| wa sa | | | | | ea aa | ea sha]; try discriminate Ha;
    destruct b as [| wb sb | | | | | eb ab | eb shb]; try discriminate Hb;
    destruct div_or_mod; simpl; try reflexivity;
    try (destruct sa; reflexivity); try (destruct sb; reflexivity);
    destruct sa, sb; reflexivity.
Qed.

Lemma check_ptr_type_impl_int (a b : dtype) (allow : bool) :
  is_int a = true -> check_ptr_type_impl a b allow = Return tt.
Proof. intros H; destruct a; try discriminate H; reflexivity. Qed.

Lemma binary_op_type_checking_impl_int (a b : dtype) (sh : list Z)
    (hl hr : ir.value) (allow_lhs_ptr allow_rhs_ptr div_or_mod : bool)
    (st : ir.builder) :
  is_int a = true -> is_int b = true ->
  binary_op_type_checking_impl (block hl (tensor a sh)) (block hr (tensor b sh))
    allow_lhs_ptr allow_rhs_ptr true div_or_mod st
  = if div_or_mod && negb (same_signedness a b)
    then (Raise (ValueError (different_signedness_message a b)), st)
    else
      let c := promoted_type a b in
      let st1 := st ++ promote_instr a c hl sh in
      (Return (block (promoted a c hl (List.length st)) (tensor c sh),
               block (promoted b c hr (List.length st1)) (tensor c sh)),
       st1 ++ promote_instr b c hr sh).
Proof.
  intros Ha Hb.
  pose proof (is_int_kind a Ha) as Ka. pose proof (is_int_kind b Hb) as Kb.
  destruct (integer_promote_impl_int a b Ha Hb) as [_ Hc].
  unfold binary_op_type_checking_impl, binary_op_type_checking_impl_with, bind.
  rewrite broadcast_impl_value_same_shape by assumption.
  cbn [type_of ret]. rewrite !scalar_tensor by assumption.
  unfold lift. rewrite !check_ptr_type_impl_int by assumption.
  replace (is_ptr a) with false by (destruct a; simpl in *; congruence).
  replace (is_ptr b) with false by (destruct b; simpl in *; congruence).
  cbn [andb negb]. rewrite computation_type_impl_int by assumption.
  destruct (div_or_mod && negb (same_signedness a b)); [reflexivity|].
  rewrite cast_promote by assumption.
  rewrite cast_promote by assumption.
  reflexivity.
Qed.

(** ** The recursion of [cast]

    Two nested activations are all that [cast] ever opens: the casts made
    from inside a cast are a pointer-to-Int64 conversion and casts to the
    kind the value already has.  The result is therefore the same for
    every recursion limit from 2 on. *)

Lemma cast_body_twice (r1 r2 : pyobj -> dtype -> M pyobj) (input : pyobj)
    (dst_ty : dtype) (st : ir.builder) :
  cast_body (cast_body r1) input dst_ty st
  = cast_body (cast_body r2) input dst_ty st.
Proof.
  destruct input as [h ty | h | v]; [| reflexivity | reflexivity].
  destruct ty as [| w s | | | | | e a | e [|z sh]];
    try (destruct dst_ty as [| w' s' | | | | | e' a' | e' sh'];
         vm_compute; reflexivity);
    destruct e as [| w s | | | | | e a | e sh'];
    destruct dst_ty as [| w' s' | | | | | e' a' | e' sh''];
    vm_compute; reflexivity.
Qed.

Lemma cast_fuel_enough (n : nat) (input : pyobj) (dst_ty : dtype)
    (st : ir.builder) :
  cast_fuel (S (S n)) input dst_ty st = cast_fuel 2 input dst_ty st.
Proof. apply cast_body_twice. Qed.

Lemma cast_any_limit (n : nat) (input : pyobj) (dst_ty : dtype)
    (st : ir.builder) :
  cast_fuel (S (S n)) input dst_ty st = cast input dst_ty st.
Proof.
  rewrite cast_fuel_enough. symmetry.
  exact (cast_fuel_enough (recursion_limit - 2) input dst_ty st).
Qed.

Lemma promoted_type_not_floating (a b : dtype) :
  is_int a = true -> is_int b = true ->
  is_floating (promoted_type a b) = false
  /\ is_ptr (promoted_type a b) = false.
Proof.
  intros Ha Hb. destruct (integer_promote_impl_int a b Ha Hb) as [_ Hc].
  destruct (promoted_type a b); try discriminate Hc; split; reflexivity.
Qed.

(** ** True division *)

(** C1 (true division of integer operands).  On two operands of one shape and of integer kinds,
    true division follows the signedness of the kinds.  Equal signedness:
    the operands are promoted to their common integer kind, each is then
    converted to Float32, the divide is emitted on the two converted
    values, and the result has element kind Float32.  Different
    signedness: the call raises the [ValueError] of
    [computation_type_impl] and emits nothing. *)
Theorem truediv_int_int (a b : dtype) (sh : list Z) (hl hr : ir.value)
    (st : ir.builder) :
  is_int a = true -> is_int b = true ->
  truediv (block hl (tensor a sh)) (block hr (tensor b sh)) st
  = if same_signedness a b then
      let c := promoted_type a b in
      let st1 := st ++ promote_instr a c hl sh in
      let st2 := st1 ++ promote_instr b c hr sh in
      let n := List.length st2 in
      (Return (block (ir.res (S (S n))) (tensor float32 sh)),
       st2 ++ [int_to_fp c (promoted a c hl (List.length st))
                 (tensor float32 sh);
               int_to_fp c (promoted b c hr (List.length st1))
                 (tensor float32 sh);
               ir.create_fdiv (ir.res n) (ir.res (S n))])
    else (Raise (ValueError (different_signedness_message a b)), st).
Proof.
  intros Ha Hb.
  destruct (integer_promote_impl_int a b Ha Hb) as [_ Hc].
  destruct (promoted_type_not_floating a b Ha Hb) as [Hf _].
  pose proof (is_int_kind _ Hc) as Kc.
  unfold truediv, bind.
  rewrite binary_op_type_checking_impl_int by assumption.
  cbn [andb]. destruct (same_signedness a b); cbn [negb]; [|reflexivity].
  cbv zeta. cbn [type_of ret]. rewrite !scalar_tensor by assumption.
  rewrite Hf, Hc. cbn [andb].
  rewrite cast_int_float32 by assumption.
  rewrite cast_int_float32 by assumption.
  cbn [handle_of ret emit type_of]. unfold ret.
  rewrite <- !app_assoc. cbn [app].
  rewrite !length_app. cbn [List.length].
  repeat f_equal; lia.
Qed.

(** True division of an Int8(signed) block and a UInt16 block of shape
    [128] does not succeed: the call raises and no divide is emitted. *)
Lemma truediv_int8_uint16_raises :
  truediv (block (ir.arg 0) (block_type int8 [128]))
          (block (ir.arg 1) (block_type uint16 [128])) []
  = (Raise (ValueError (different_signedness_message int8 uint16)), []).
Proof. reflexivity. Qed.

Lemma truediv_int_int_witness :
  is_int int8 = true /\ is_int int16 = true /\
  truediv (block (ir.arg 0) (block_type int8 [128]))
          (block (ir.arg 1) (block_type int16 [128])) []
  = (Return (block (ir.res 3) (block_type float32 [128])),
     [ir.create_int_cast (ir.arg 0) (block_type int16 [128]) true;
      ir.create_si_to_fp (ir.res 0) (block_type float32 [128]);
      ir.create_si_to_fp (ir.arg 1) (block_type float32 [128]);
      ir.create_fdiv (ir.res 1) (ir.res 2)]).
Proof.
  split; [reflexivity|]. split; [reflexivity|].
  exact (truediv_int_int int8 int16 [128] (ir.arg 0) (ir.arg 1) []
           eq_refl eq_refl).
Defined.

(** ** Remainder *)

Lemma mod_int_int (a b : dtype) (sh : list Z) (hl hr : ir.value)
    (st : ir.builder) :
  is_int a = true -> is_int b = true ->
  mod_ (block hl (tensor a sh)) (block hr (tensor b sh)) st
  = if same_signedness a b then
      let c := promoted_type a b in
      let st1 := st ++ promote_instr a c hl sh in
      let st2 := st1 ++ promote_instr b c hr sh in
      let x := promoted a c hl (List.length st) in
      let y := promoted b c hr (List.length st1) in
      (Return (block (ir.res (List.length st2)) (tensor c sh)),
       st2 ++ [if is_int_signed c then ir.create_srem x y
               else ir.create_urem x y])
    else (Raise (ValueError (different_signedness_message a b)), st).
Proof.
  intros Ha Hb.
  destruct (integer_promote_impl_int a b Ha Hb) as [_ Hc].
  destruct (promoted_type_not_floating a b Ha Hb) as [Hf _].
  pose proof (is_int_kind _ Hc) as Kc.
  unfold mod_, bind.
  rewrite binary_op_type_checking_impl_int by assumption.
  cbn [andb]. destruct (same_signedness a b); cbn [negb]; [|reflexivity].
  cbv zeta. cbn [type_of ret]. rewrite !scalar_tensor by assumption.
  rewrite Hf, Hc. unfold lift.
  destruct (promoted_type a b) as [| w s | | | | | e asp | e shp];
    try discriminate Hc.
  - reflexivity.
  - destruct s; reflexivity.
Qed.

(** C3 (remainder and signedness).  On two operands of one shape (two
    scalars, or two blocks of equal shape): remainder of an Int32(signed)
    by a UInt32 operand raises [ValueError] with the different-signedness
    message of [computation_type_impl], and emits nothing; remainder of an
    Int32(signed) by an Int16(signed) operand sign-extends the right
    operand to Int32 and returns the signed remainder, of kind Int32. *)
Theorem mod_int32_signedness (sh : list Z) (hl hr : ir.value)
    (st : ir.builder) :
  mod_ (block hl (tensor int32 sh)) (block hr (tensor uint32 sh)) st
  = (Raise (ValueError (different_signedness_message int32 uint32)), st)
  /\ mod_ (block hl (tensor int32 sh)) (block hr (tensor int16 sh)) st
     = (Return (block (ir.res (S (List.length st))) (tensor int32 sh)),
        st ++ [ir.create_int_cast hr (tensor int32 sh) true;
               ir.create_srem hl (ir.res (List.length st))]).
Proof.
  split.
  - rewrite mod_int_int by reflexivity. reflexivity.
  - rewrite mod_int_int by reflexivity.
    cbn. rewrite app_nil_r, <- app_assoc, length_app. cbn.
    repeat f_equal; lia.
Qed.

(** The exception that remainder raises on Int32(signed) and UInt32
    operands is a [ValueError], not a [TypeError]. *)
Lemma mod_int32_uint32_not_TypeError :
  outcome (fst (mod_ (block (ir.arg 0) int32) (block (ir.arg 1) uint32) []))
  = inr "ValueError"
  /\ outcome (fst (mod_ (block (ir.arg 0) int32) (block (ir.arg 1) uint32) []))
     <> inr "TypeError".
Proof. split; [reflexivity | discriminate]. Qed.

(** When a scalar meets a block, the broadcast gives the splatted scalar
    the whole type of the block before the kinds are read: an Int32 block
    and a UInt32 scalar are then two Int32 operands, and a signed
    remainder is emitted; an Int32 scalar and a UInt32 block give an
    unsigned one. *)
Lemma mod_scalar_with_block_signedness :
  mod_ (block (ir.arg 0) (block_type int32 [128])) (block (ir.arg 1) uint32) []
  = (Return (block (ir.res 1) (block_type int32 [128])),
     [ir.create_splat (ir.arg 1) [128];
      ir.create_srem (ir.arg 0) (ir.res 0)])
  /\ mod_ (block (ir.arg 0) int32) (block (ir.arg 1) (block_type uint32 [128]))
          []
     = (Return (block (ir.res 1) (block_type uint32 [128])),
        [ir.create_splat (ir.arg 0) [128];
         ir.create_urem (ir.res 0) (ir.arg 1)]).
Proof. split; vm_compute; reflexivity. Qed.

(** ** Reductions *)

Lemma reduce_impl_int (k : dtype) (w : Z) (sh : list Z) (h : ir.value)
    (axis : Z) (name : string) (FLOAT_OP INT_OP : ir.REDUCE_OP.t)
    (st : ir.builder) :
  int_bitwidth k = Return w -> w <= 32 ->
  reduce_impl (block h (tensor k sh)) axis name FLOAT_OP INT_OP st
  = let st1 := st ++ promote_instr k int32 h sh in
    (Return (raw (ir.res (List.length st1))),
     st1 ++ [ir.create_reduce (promoted k int32 h (List.length st))
               INT_OP axis]).
Proof.
  intros Hw Hle.
  assert (Hk : is_int k = true) by (destruct k; try discriminate Hw; reflexivity).
  pose proof (is_int_kind _ Hk) as Kk.
  unfold reduce_impl, bind. cbn [type_of ret].
  rewrite scalar_tensor by assumption. rewrite Hk. unfold lift.
  rewrite Hw. cbn [rbind].
  replace (w <=? 32) with true by (symmetry; apply Z.leb_le; exact Hle).
  rewrite cast_promote by (assumption || reflexivity).
  replace (is_floating k) with false
    by (destruct k; try discriminate Hk; reflexivity).
  reflexivity.
Qed.

(** C5 (widening before a reduction).  [min], [max], [sum] and [xor_sum] first bring an
    operand of an integer kind of at most 32 bits to Int32, the signed
    32-bit kind, whatever the signedness of the operand (an Int32 operand
    is left as it is), and then emit the integer reduction on the
    converted value. *)
Theorem reduce_widens_to_int32 (k : dtype) (w : Z) (sh : list Z)
    (h : ir.value) (axis : Z) (st : ir.builder) :
  int_bitwidth k = Return w -> w <= 32 ->
  let st1 := st ++ promote_instr k int32 h sh in
  let widened := promoted k int32 h (List.length st) in
  let reduced op :=
    (Return (raw (ir.res (List.length st1))),
     st1 ++ [ir.create_reduce widened op axis]) in
  min (block h (tensor k sh)) axis st = reduced ir.REDUCE_OP.MIN
  /\ max (block h (tensor k sh)) axis st = reduced ir.REDUCE_OP.MAX
  /\ sum (block h (tensor k sh)) axis st = reduced ir.REDUCE_OP.ADD
  /\ xor_sum (block h (tensor k sh)) axis st = reduced ir.REDUCE_OP.XOR.
Proof.
  intros Hw Hle st1 widened reduced.
  assert (Hk : is_int k = true) by (destruct k; try discriminate Hw; reflexivity).
  repeat split.
  - apply (reduce_impl_int k w); assumption.
  - apply (reduce_impl_int k w); assumption.
  - apply (reduce_impl_int k w); assumption.
  - unfold xor_sum, bind. cbn [type_of ret].
    rewrite scalar_tensor by (apply is_int_kind; assumption).
    rewrite Hk. cbn [negb]. apply (reduce_impl_int k w); assumption.
Qed.

(** A UInt8 block is converted to the signed Int32 before it is reduced,
    not to UInt32. *)
Lemma min_uint8_widens_to_signed :
  min (block (ir.arg 0) (block_type uint8 [4])) 0 []
  = (Return (raw (ir.res 1)),
     [ir.create_int_cast (ir.arg 0) (block_type int32 [4]) false;
      ir.create_reduce (ir.res 0) ir.REDUCE_OP.MIN 0])
  /\ block_type int32 [4] <> block_type uint32 [4].
Proof. split; [reflexivity | discriminate]. Qed.

Lemma reduce_widens_to_int32_witness :
  int_bitwidth uint8 = Return 8 /\ 8 <= 32 /\
  min (block (ir.arg 0) (block_type uint8 [4])) 0 []
  = (Return (raw (ir.res 1)),
     [ir.create_int_cast (ir.arg 0) (block_type int32 [4]) false;
      ir.create_reduce (ir.res 0) ir.REDUCE_OP.MIN 0])
  /\ xor_sum (block (ir.arg 0) (block_type uint8 [4])) 0 []
  = (Return (raw (ir.res 1)),
     [ir.create_int_cast (ir.arg 0) (block_type int32 [4]) false;
      ir.create_reduce (ir.res 0) ir.REDUCE_OP.XOR 0]).
Proof.
  pose proof (reduce_widens_to_int32 uint8 8 [4] (ir.arg 0) 0 [] eq_refl
                ltac:(lia)) as H.
  split; [reflexivity|]. split; [lia|].
  split; [exact (proj1 H) | exact (proj2 (proj2 (proj2 H)))].
Defined.

(** ** Pointer arithmetic *)



(** ** Broadcasting *)

(** C10 (type of a splatted scalar).  When one operand is a block and the other has rank 0,
    [broadcast_impl_value] splats the rank-0 operand to the shape of the
    block and gives the splatted value the whole type of the block, its
    element kind included, whatever the kind of the rank-0 operand was. *)
Theorem broadcast_impl_value_splat_type (e k : dtype) (z : Z) (sh : list Z)
    (hb hs : ir.value) (st : ir.builder) :
  is_block k = false ->
  let block_ty := block_type e (z :: sh) in
  broadcast_impl_value (block hb block_ty) (block hs k) st
  = (Return (block hb block_ty, block (ir.res (List.length st)) block_ty),
     st ++ [ir.create_splat hs (z :: sh)])
  /\ broadcast_impl_value (block hs k) (block hb block_ty) st
     = (Return (block (ir.res (List.length st)) block_ty, block hb block_ty),
        st ++ [ir.create_splat hs (z :: sh)]).
Proof.
  intros Hk block_ty. unfold block_ty, broadcast_impl_value, bind.
  cbn [type_of ret is_block]. rewrite Hk. split; reflexivity.
Qed.

Lemma broadcast_impl_value_splat_type_witness :
  is_block int32 = false /\
  broadcast_impl_value (block (ir.arg 0) (block_type float32 [128]))
                       (block (ir.arg 1) int32) []
  = (Return (block (ir.arg 0) (block_type float32 [128]),
             block (ir.res 0) (block_type float32 [128])),
     [ir.create_splat (ir.arg 1) [128]]).
Proof.
  split; [reflexivity|].
  exact (proj1 (broadcast_impl_value_splat_type float32 int32 128 []
                  (ir.arg 0) (ir.arg 1) [] eq_refl)).
Defined.

(** The loop of [broadcast_impl_value] against the resolution of the
    specification. *)
Lemma ret_shape_loop_offending (l r : list Z) (i : Z) :
  List.length l = List.length r ->
  ret_shape_loop i l r
  = match offending_axis i l r with
    | Some (j, a, b) => Raise (ValueError (incompatible_dimensions_message j a b))
    | None =>
        Return (map (fun ab => resolve_axis (fst ab) (snd ab)) (combine l r))
    end.
Proof.
  revert r i; induction l as [|a l IH]; intros [|b r] i Hlen;
    try discriminate Hlen; [reflexivity|].
  injection Hlen as Hlen. simpl. unfold compatible_axis, resolve_axis.
  rewrite (IH r (i + 1) Hlen).
  destruct (a =? 1) eqn:Ea; simpl.
  - destruct (offending_axis (i + 1) l r) as [[[j x] y]|]; reflexivity.
  - destruct (b =? 1) eqn:Eb; simpl.
    + destruct (offending_axis (i + 1) l r) as [[[j x] y]|]; reflexivity.
    + destruct (a =? b) eqn:Eab; [|reflexivity].
      destruct (offending_axis (i + 1) l r) as [[[j x] y]|]; reflexivity.
Qed.





Lemma broadcast_impl_value_blocks (el er : dtype)
    (l r : list Z) (hl hr : ir.value) (st : ir.builder) :
  l <> [] -> r <> [] ->
  broadcast_impl_value (block hl (block_type el l))
                       (block hr (block_type er r)) st
  = match shape_compatible l r with
    | Return shape =>
        let st1 := st ++ broadcast_instr l shape hl in
        (Return (block (broadcasted l shape hl (List.length st))
                       (block_type el shape),
                 block (broadcasted r shape hr (List.length st1))
                       (block_type er shape)),
         st1 ++ broadcast_instr r shape hr)
    | Raise e => (Raise e, st)
    end.
Proof.
  intros Hl Hr.
  destruct l as [|a l]; [contradiction|]. destruct r as [|b r]; [contradiction|].
  unfold broadcast_impl_value, shape_compatible, bind.
  cbn [type_of ret is_block negb andb get_block_shapes lift scalar].
  destruct (Nat.eqb (List.length (a :: l)) (List.length (b :: r))) eqn:Hlen;
    cbn [negb]; [|reflexivity].
  apply Nat.eqb_eq in Hlen.
  rewrite (ret_shape_loop_offending _ _ 0 Hlen).
  destruct (offending_axis 0 (a :: l) (b :: r)) as [[[j x] y]|]; [reflexivity|].
  set (shape := map _ _). clearbody shape.
  unfold broadcast_instr, broadcasted.
  destruct (shape_eqb (a :: l) shape) eqn:El;
    destruct (shape_eqb (b :: r) shape) eqn:Er; cbn [negb handle_of ret emit];
    try apply shape_eqb_eq in El; try apply shape_eqb_eq in Er;
    rewrite ?app_nil_r; try rewrite El; try rewrite Er; reflexivity.
Qed.



(** ** Casts through bfloat16 *)

Lemma cast_bf16_NameError (k : dtype) (sh : list Z) (h : ir.value)
    (st : ir.builder) :
  is_kind k = true -> is_bf16 k = false -> is_fp32 k = false ->
  cast (block h (tensor bfloat16 sh)) k st = (Raise (NameError "case"), st)
  /\ cast (block h (tensor k sh)) bfloat16 st = (Raise (NameError "case"), st).
Proof.
  intros Kk Hb Hf. rewrite !cast_unfold.
  split; destruct k; try discriminate; destruct sh; reflexivity.
Qed.

(** C4 (casts through BFloat16), as the code evaluates.  A cast between BFloat16 and Float16, in either
    direction and at any shape, raises [NameError] for the unbound name
    [case] and emits no instruction: the conversion through Float32 is
    never performed and no value is returned. *)
Theorem cast_bfloat16_float16_raises (sh : list Z) (h : ir.value)
    (st : ir.builder) :
  cast (block h (tensor bfloat16 sh)) float16 st
  = (Raise (NameError "case"), st)
  /\ cast (block h (tensor float16 sh)) bfloat16 st
     = (Raise (NameError "case"), st).
Proof. apply cast_bf16_NameError; reflexivity. Qed.

(** ** Loads *)

Lemma load_plain (e : dtype) (space z : Z) (sh : list Z) (p : ir.value)
    (is_volatile : bool) (st : ir.builder) :
  dtype_eqb e int1 = false ->
  load (block p (block_type (pointer_type e space) (z :: sh))) None None
       None None is_volatile st
  = (Return (block (ir.res (List.length st)) (block_type e (z :: sh))),
     st ++ [ir.create_load p ir.CACHE_MODIFIER.NONE ir.EVICTION_POLICY.NORMAL
              is_volatile]).
Proof.
  intros He. unfold load, bind. cbn [type_of ret scalar is_ptr negb is_block].
  cbn [lift element]. rewrite He. reflexivity.
Qed.

(** A pointer to booleans is first reinterpreted as a pointer to Int8. *)
Lemma load_plain_bool (space z : Z) (sh : list Z) (p : ir.value)
    (is_volatile : bool) (st : ir.builder) :
  load (block p (block_type (pointer_type int1 space) (z :: sh))) None None
       None None is_volatile st
  = (Return (block (ir.res (S (List.length st))) (block_type int8 (z :: sh))),
     st ++ [ir.create_bitcast p
              (block_type (pointer_type int8 space) (z :: sh));
            ir.create_load (ir.res (List.length st)) ir.CACHE_MODIFIER.NONE
              ir.EVICTION_POLICY.NORMAL is_volatile]).
Proof.
  unfold load, bind. cbn. rewrite <- app_assoc, length_app. cbn.
  rewrite Nat.add_1_r. reflexivity.
Qed.

Lemma load_fill_without_mask (e : dtype) (space z : Z) (sh : list Z)
    (p o : ir.value) (is_volatile : bool) (st : ir.builder) :
  is_kind e = true -> dtype_eqb e int1 = false ->
  load (block p (block_type (pointer_type e space) (z :: sh))) None
       (Some (block o (block_type e (z :: sh)))) None None is_volatile st
  = (Raise (ValueError [Str "`other` cannot be provided without `mask`"]), st).
Proof.
  intros Ke He. unfold load, bind.
  cbn [type_of ret scalar is_ptr negb is_block get_block_shapes lift element].
  unfold broadcast_impl_shape, bind.
  cbn [type_of ret is_block negb get_block_shapes lift].
  rewrite Nat.eqb_refl, shape_eqb_refl. cbn -[cast].
  rewrite cast_unfold.
  rewrite (cast_body_same _ e (z :: sh)) by assumption.
  rewrite He. reflexivity.
Qed.

(** C6 (load with a mask and no fill), as the code evaluates.  A load through a block of pointers to Float32 with a
    mask of the same shape and no fill splats the undefined fill and then
    raises [NameError] for the unbound name [other_it]: no masked load is
    emitted and the call does not return. *)
Theorem load_mask_without_fill_raises (space z : Z) (sh : list Z)
    (p m : ir.value) (is_volatile : bool) (st : ir.builder) :
  load (block p (block_type (pointer_type float32 space) (z :: sh)))
       (Some (block m (block_type int1 (z :: sh)))) None None None
       is_volatile st
  = (Raise (NameError "other_it"),
     st ++ [ir.create_splat (ir.undef_get float32) (z :: sh)]).
Proof.
  unfold load, bind.
  cbn [type_of ret scalar is_ptr negb is_block get_block_shapes lift element].
  unfold broadcast_impl_shape, bind.
  cbn [type_of ret is_block negb get_block_shapes lift].
  rewrite Nat.eqb_refl, shape_eqb_refl. reflexivity.
Qed.

(** ** Floating-point atomic max *)

(** The mask of the negative path: [less_than] hands back the comparison
    with the type of its operands, a floating type, and [and_] refuses a
    floating operand. *)
Lemma less_than_float32_type (v : ir.value) (st : ir.builder) :
  less_than (block v float32) (block (ir.constant_float_get float32 0) float32)
            st
  = (Return (block (ir.res (List.length st)) float32),
     st ++ [ir.create_fcmpOLT v (ir.constant_float_get float32 0)]).
Proof. reflexivity. Qed.

Lemma and_mask_float32_raises (m n : ir.value) (st : ir.builder) :
  and_ (block m int1) (block n float32) st
  = (Raise (IncompatibleTypeErrorimpl int1 float32), st).
Proof. reflexivity. Qed.

(** C7 (floating-point atomic max), as the code evaluates.  [atomic_max] of a Float32 value through a pointer to
    Float32 under a given mask reinterprets value and pointer, emits the
    two comparisons with zero, and raises when it combines the mask with
    the first of them: no atomic read-modify-write and no select is
    emitted, and the call does not return. *)
Theorem atomic_max_float32_raises (p v m : ir.value) (st : ir.builder) :
  atomic_max (block p (pointer_type float32 1)) (block v float32)
             (Some (block m int1)) st
  = (Raise (AttributeError "type"),
     st ++ [ir.create_bitcast v int32;
            ir.create_bitcast p (pointer_type int32 1);
            ir.create_fcmpOGE v (ir.constant_float_get float32 0);
            ir.create_fcmpOLT v (ir.constant_float_get float32 0)]).
Proof.
  unfold atomic_max, bind. cbn. rewrite <- !app_assoc. reflexivity.
Qed.

(** * Further properties *)

(** ** Integer promotion and the computation type *)

(** X1 (integer promotion never narrows).  On two integer kinds,
    [integer_promote_impl] returns one of its two operands, of the larger
    of the two bit-widths; when the widths are equal the result is signed
    only if both operands are. *)
Theorem integer_promote_impl_widest (a b : dtype) :
  is_int a = true -> is_int b = true ->
  exists (c : dtype) (wa wb : Z),
    integer_promote_impl a b = Return c
    /\ int_bitwidth a = Return wa /\ int_bitwidth b = Return wb
    /\ (c = a \/ c = b)
    /\ int_bitwidth c = Return (Z.max wa wb)
    /\ (wa = wb -> is_int_signed c = is_int_signed a && is_int_signed b).
Proof.
  intros Ha Hb.
  destruct a as [| wa sa | | | | | ea aa | ea sha]; try discriminate Ha;
    destruct b as [| wb sb | | | | | eb ab | eb shb]; try discriminate Hb;
    try destruct wa, sa; try destruct wb, sb;
    do 3 eexists; (split; [reflexivity|]);
    (split; [reflexivity|]); (split; [reflexivity|]);
    (split; [first [left; reflexivity | right; reflexivity]|]);
    (split; [reflexivity|]);
    intros H; try discriminate H; reflexivity.
Qed.

Lemma integer_promote_impl_widest_witness :
  is_int int32 = true /\ is_int uint32 = true /\
  exists (c : dtype) (wa wb : Z),
    integer_promote_impl int32 uint32 = Return c
    /\ int_bitwidth int32 = Return wa /\ int_bitwidth uint32 = Return wb
    /\ (c = int32 \/ c = uint32)
    /\ int_bitwidth c = Return (Z.max wa wb)
    /\ (wa = wb -> is_int_signed c = is_int_signed int32 && is_int_signed uint32).
Proof.
  split; [reflexivity|]. split; [reflexivity|].
  exact (integer_promote_impl_widest int32 uint32 eq_refl eq_refl).
Defined.

(** X2 (integer promotion is a join).  On integer kinds,
    [integer_promote_impl] is commutative, idempotent and associative. *)
Theorem integer_promote_impl_join (a b c : dtype) :
  is_int a = true -> is_int b = true -> is_int c = true ->
  integer_promote_impl a b = integer_promote_impl b a
  /\ integer_promote_impl a a = Return a
  /\ (x <~ integer_promote_impl a b ;; integer_promote_impl x c)
     = (y <~ integer_promote_impl b c ;; integer_promote_impl a y).
Proof.
  intros Ha Hb Hc.
  destruct a as [| wa sa | | | | | ea aa | ea sha]; try discriminate Ha;
    destruct b as [| wb sb | | | | | eb ab | eb shb]; try discriminate Hb;
    destruct c as [| wc sc | | | | | ec ac | ec shc]; try discriminate Hc;
    try destruct wa, sa; try destruct wb, sb; try destruct wc, sc;
    repeat split.
Qed.

Lemma integer_promote_impl_join_witness :
  is_int int8 = true /\ is_int uint8 = true /\ is_int int32 = true /\
  integer_promote_impl int8 uint8 = integer_promote_impl uint8 int8
  /\ integer_promote_impl int8 int8 = Return int8
  /\ (x <~ integer_promote_impl int8 uint8 ;; integer_promote_impl x int32)
     = (y <~ integer_promote_impl uint8 int32 ;; integer_promote_impl int8 y).
Proof.
  split; [reflexivity|]. split; [reflexivity|]. split; [reflexivity|].
  exact (integer_promote_impl_join int8 uint8 int32 eq_refl eq_refl eq_refl).
Defined.

(** X3 (range of the computation type).  When [computation_type_impl]
    returns, the result is Float64, Float32 or Float16 and then one of the
    operands is floating, or both operands are integer kinds and the
    result is one of the two; under [div_or_mod] it is never Float16. *)
Theorem computation_type_impl_range (a b : dtype) (div_or_mod : bool)
    (c : dtype) :
  computation_type_impl a b div_or_mod = Return c ->
  (((c = float64 \/ c = float32 \/ c = float16)
    /\ is_floating a || is_floating b = true)
   \/ (is_int a = true /\ is_int b = true /\ (c = a \/ c = b)))
  /\ (div_or_mod = true -> c <> float16).
Proof.
  intros H.
  destruct a as [| wa sa | | | | | ea aa | ea sha];
    destruct b as [| wb sb | | | | | eb ab | eb shb];
    try destruct wa, sa; try destruct wb, sb;
    destruct div_or_mod; vm_compute in H; try discriminate H;
    injection H as <-;
    (split;
     [first [ left; split; [tauto | reflexivity]
            | right; split; [reflexivity | split; [reflexivity | tauto]] ]
     | intros E; discriminate ]).
Qed.

Lemma computation_type_impl_range_witness :
  computation_type_impl float16 int32 true = Return float32 /\
  (((float32 = float64 \/ float32 = float32 \/ float32 = float16)
    /\ is_floating float16 || is_floating int32 = true)
   \/ (is_int float16 = true /\ is_int int32 = true
       /\ (float32 = float16 \/ float32 = int32)))
  /\ (true = true -> float32 <> float16).
Proof.
  split; [reflexivity|].
  exact (computation_type_impl_range float16 int32 true float32 eq_refl).
Defined.

(** X4 (BFloat16 has no computation type of its own).  With an operand
    of kind BFloat16 and another that is not Float16, Float32 or Float64 -
    BFloat16 itself, an integer, a pointer - [computation_type_impl]
    fails its assertion, in either order and for both flags. *)
Theorem computation_type_impl_bfloat16 (b : dtype) (div_or_mod : bool) :
  is_fp16 b || is_fp32 b || is_fp64 b = false ->
  computation_type_impl bfloat16 b div_or_mod = Raise AssertionError
  /\ computation_type_impl b bfloat16 div_or_mod = Raise AssertionError.
Proof.
  intros H. destruct b; try discriminate H; destruct div_or_mod;
    split; reflexivity.
Qed.

Lemma computation_type_impl_bfloat16_witness :
  is_fp16 bfloat16 || is_fp32 bfloat16 || is_fp64 bfloat16 = false /\
  computation_type_impl bfloat16 bfloat16 false = Raise AssertionError
  /\ computation_type_impl bfloat16 bfloat16 false = Raise AssertionError.
Proof.
  split; [reflexivity|].
  exact (computation_type_impl_bfloat16 bfloat16 false eq_refl).
Defined.

(** ** Casts *)

Lemma dtype_eqb_tensor (a k : dtype) (sh : list Z) :
  dtype_eqb (tensor a sh) (tensor k sh) = dtype_eqb a k.
Proof.
  destruct sh as [|z sh]; [reflexivity|]. simpl.
  rewrite Z.eqb_refl, shape_eqb_refl, andb_true_r. reflexivity.
Qed.

Lemma plain_kind_is_kind (k : dtype) : plain_kind k = true -> is_kind k = true.
Proof. intros H; destruct k; try discriminate H; reflexivity. Qed.

Lemma cast_body_plain (rec : pyobj -> dtype -> M pyobj) (a k : dtype)
    (sh : list Z) (h : ir.value) (st : ir.builder) :
  plain_kind a = true -> plain_kind k = true ->
  dtype_eqb a k || negb (through_float32 a k) = true ->
  cast_body rec (block h (tensor a sh)) k st
  = (Return (block (cast_value a k h (List.length st)) (tensor k sh)),
     st ++ cast_instr a k h sh).
Proof.
  intros Ha Hk Hr. unfold cast_instr, cast_value.
  destruct (dtype_eqb a k) eqn:E.
  - apply dtype_eqb_eq in E; subst k.
    rewrite cast_body_same by (apply plain_kind_is_kind; assumption).
    rewrite app_nil_r; reflexivity.
  - destruct a as [| wa sa | | | | | ea aa | ea sha]; try discriminate Ha;
      destruct k as [| wk sk | | | | | ek ak | ek shk]; try discriminate Hk;
      try discriminate Hr; try discriminate E;
      try destruct wa, sa; try destruct wk, sk; try discriminate E;
      destruct sh; reflexivity.
Qed.

Lemma cast_plain (a k : dtype) (sh : list Z) (h : ir.value)
    (st : ir.builder) :
  plain_kind a = true -> plain_kind k = true ->
  dtype_eqb a k || negb (through_float32 a k) = true ->
  cast (block h (tensor a sh)) k st
  = (Return (block (cast_value a k h (List.length st)) (tensor k sh)),
     st ++ cast_instr a k h sh).
Proof. intros. rewrite cast_unfold. apply cast_body_plain; assumption. Qed.

Lemma cast_body_ptr_ptr (rec : pyobj -> dtype -> M pyobj) (e e' : dtype)
    (space space' : Z) (sh : list Z) (h : ir.value) (st : ir.builder) :
  dtype_eqb (pointer_type e space) (pointer_type e' space') = false ->
  cast_body rec (block h (tensor (pointer_type e space) sh))
            (pointer_type e' space') st
  = (Return (block (ir.res (List.length st))
                   (tensor (pointer_type e' space') sh)),
     st ++ [ir.create_bitcast h (tensor (pointer_type e' space') sh)]).
Proof.
  intros E. unfold cast_body, bind. cbn [type_of ret].
  rewrite is_block_tensor by reflexivity.
  pose proof (dtype_eqb_tensor (pointer_type e space) (pointer_type e' space')
                sh) as T.
  rewrite E in T.
  destruct sh as [|z sh]; cbn [tensor get_block_shapes lift ret] in *;
    rewrite T; reflexivity.
Qed.

Lemma cast_body_ptr_int64 (rec : pyobj -> dtype -> M pyobj) (e : dtype)
    (space : Z) (sn : SIGNEDNESS) (sh : list Z) (h : ir.value)
    (st : ir.builder) :
  cast_body rec (block h (tensor (pointer_type e space) sh)) (int_ W64 sn) st
  = (Return (block (ir.res (List.length st)) (tensor (int_ W64 sn) sh)),
     st ++ [ir.create_cast_PtrToInt h (tensor (int_ W64 sn) sh)]).
Proof. destruct sn, sh; reflexivity. Qed.

Lemma cast_body_ptr_bool (rec : pyobj -> dtype -> M pyobj) (e : dtype)
    (space : Z) (sh : list Z) (h : ir.value) (st : ir.builder) :
  cast_body (cast_body rec) (block h (tensor (pointer_type e space) sh)) int1 st
  = match sh with
    | [] =>
        (Return (block (ir.res (S (List.length st))) int64),
         st ++ [ir.create_cast_PtrToInt h int64;
                ir.create_icmpNE (ir.res (List.length st)) (ir.get_int64 0)])
    | _ :: _ =>
        (Return (block (ir.res (S (S (List.length st)))) (block_type int64 sh)),
         st ++ [ir.create_cast_PtrToInt h (block_type int64 sh);
                ir.create_splat (ir.get_int64 0) sh;
                ir.create_icmpNE (ir.res (List.length st))
                  (ir.res (S (List.length st)))])
    end.
Proof.
  unfold cast_body at 1. unfold bind. cbn [type_of ret].
  rewrite is_block_tensor by reflexivity.
  destruct sh as [|z sh];
    cbn [tensor get_block_shapes lift ret dtype_eqb scalar is_bf16 is_fp32
         andb orb negb is_floating is_fp16 is_fp64 is_int is_ptr int_bitwidth
         Z.eqb Pos.eqb rbind is_bool].
  - rewrite (cast_body_ptr_int64 rec e space SIGNED []).
    unfold not_equal_with, binary_op_type_checking_impl_with, bind.
    cbn -[cast_body].
    rewrite !(cast_body_same _ int64 []) by reflexivity.
    cbn. rewrite <- !app_assoc, !length_app. cbn. unfold ret.
    repeat f_equal; lia.
  - rewrite (cast_body_ptr_int64 rec e space SIGNED (z :: sh)).
    unfold not_equal_with, binary_op_type_checking_impl_with, bind.
    cbn -[cast_body].
    rewrite !(cast_body_same _ int64 (z :: sh)) by reflexivity.
    cbn. rewrite <- !app_assoc, !length_app. cbn. unfold ret.
    repeat f_equal; lia.
Qed.

(** X5 (a cast to the kind a value has).  Casting a value to its own
    kind - integer, floating, BFloat16 or pointer alike, at any shape -
    returns the value itself and emits nothing. *)
Theorem cast_same_kind (k : dtype) (sh : list Z) (h : ir.value)
    (st : ir.builder) :
  is_kind k = true ->
  cast (block h (tensor k sh)) k st = (Return (block h (tensor k sh)), st).
Proof. intros Hk. rewrite cast_unfold. apply cast_body_same, Hk. Qed.

Lemma cast_same_kind_witness :
  is_kind bfloat16 = true /\
  cast (block (ir.arg 0) (block_type bfloat16 [16])) bfloat16 []
  = (Return (block (ir.arg 0) (block_type bfloat16 [16])), []).
Proof.
  split; [reflexivity|].
  exact (cast_same_kind bfloat16 [16] (ir.arg 0) [] eq_refl).
Defined.

(** X6 (the conversions between plain kinds).  Between two distinct
    integer or floating kinds that the bf16 branch does not take
    (BFloat16 only against Float32), [cast] emits exactly the one
    instruction of [conversion], on the handle of the operand and with the
    destination kind at the operand's shape, and returns its result with
    that type. *)
Theorem cast_plain_kinds (a k : dtype) (sh : list Z) (h : ir.value)
    (st : ir.builder) :
  plain_kind a = true -> plain_kind k = true ->
  dtype_eqb a k = false -> through_float32 a k = false ->
  cast (block h (tensor a sh)) k st
  = (Return (block (ir.res (List.length st)) (tensor k sh)),
     st ++ [conversion a k h (tensor k sh)]).
Proof.
  intros Ha Hk E T. rewrite cast_plain by (try assumption; rewrite T, E; reflexivity).
  unfold cast_value, cast_instr. rewrite E. reflexivity.
Qed.

Lemma cast_plain_kinds_witness :
  plain_kind float32 = true /\ plain_kind uint32 = true /\
  dtype_eqb float32 uint32 = false /\ through_float32 float32 uint32 = false /\
  cast (block (ir.arg 0) (block_type float32 [8])) uint32 []
  = (Return (block (ir.res 0) (block_type uint32 [8])),
     [ir.create_fp_to_si (ir.arg 0) (block_type uint32 [8])]).
Proof.
  repeat (split; [reflexivity|]).
  exact (cast_plain_kinds float32 uint32 [8] (ir.arg 0) []
           eq_refl eq_refl eq_refl eq_refl).
Defined.

Lemma cast_pointer_cases (e : dtype) (space : Z) (sh : list Z)
    (h : ir.value) (st : ir.builder) :
  let ptr := block h (tensor (pointer_type e space) sh) in
  let n := List.length st in
  (forall sn : SIGNEDNESS,
      cast ptr (int_ W64 sn) st
      = (Return (block (ir.res n) (tensor (int_ W64 sn) sh)),
         st ++ [ir.create_cast_PtrToInt h (tensor (int_ W64 sn) sh)]))
  /\ cast ptr int1 st
     = match sh with
       | [] =>
           (Return (block (ir.res (S n)) int64),
            st ++ [ir.create_cast_PtrToInt h int64;
                   ir.create_icmpNE (ir.res n) (ir.get_int64 0)])
       | _ :: _ =>
           (Return (block (ir.res (S (S n))) (block_type int64 sh)),
            st ++ [ir.create_cast_PtrToInt h (block_type int64 sh);
                   ir.create_splat (ir.get_int64 0) sh;
                   ir.create_icmpNE (ir.res n) (ir.res (S n))])
       end
  /\ (forall (w : width) (sn : SIGNEDNESS),
         bits w < 64 ->
         cast ptr (int_ w sn) st = (Raise AssertionError, st))
  /\ cast ptr float16 st = (Raise AssertionError, st)
  /\ cast ptr float32 st = (Raise AssertionError, st)
  /\ cast ptr float64 st = (Raise AssertionError, st)
  /\ (forall (e' : dtype) (space' : Z),
         dtype_eqb (pointer_type e space) (pointer_type e' space') = false ->
         cast ptr (pointer_type e' space') st
         = (Return (block (ir.res n) (tensor (pointer_type e' space') sh)),
            st ++ [ir.create_bitcast h (tensor (pointer_type e' space') sh)])).
Proof.
  intros ptr n. unfold ptr, n. rewrite !cast_unfold.
  split; [|split; [|split; [|split; [|split; [|split]]]]].
  - intros sn. destruct sn, sh; reflexivity.
  - apply cast_body_ptr_bool.
  - intros w sn Hw. destruct w; try (exfalso; simpl in Hw; lia);
      destruct sn, sh; reflexivity.
  - destruct sh; reflexivity.
  - destruct sh; reflexivity.
  - destruct sh; reflexivity.
  - intros e' space' E. apply cast_body_ptr_ptr, E.
Qed.

(** X7 (casts from a pointer).  To a 64-bit integer kind: one
    pointer-to-integer conversion.  To the boolean: the pointer-to-integer
    conversion to Int64 and a not-equal comparison with 0 (splatted for a
    block), whose result is typed Int64, not boolean.  To an integer of
    8, 16 or 32 bits, or to Float16, Float32 or Float64: an assertion
    failure, nothing emitted.  To another pointer type: a bitcast. *)
Theorem cast_from_pointer (e : dtype) (space : Z) (sh : list Z)
    (h : ir.value) (st : ir.builder) :
  let ptr := block h (tensor (pointer_type e space) sh) in
  let n := List.length st in
  (forall sn : SIGNEDNESS,
      cast ptr (int_ W64 sn) st
      = (Return (block (ir.res n) (tensor (int_ W64 sn) sh)),
         st ++ [ir.create_cast_PtrToInt h (tensor (int_ W64 sn) sh)]))
  /\ cast ptr int1 st
     = match sh with
       | [] =>
           (Return (block (ir.res (S n)) int64),
            st ++ [ir.create_cast_PtrToInt h int64;
                   ir.create_icmpNE (ir.res n) (ir.get_int64 0)])
       | _ :: _ =>
           (Return (block (ir.res (S (S n))) (block_type int64 sh)),
            st ++ [ir.create_cast_PtrToInt h (block_type int64 sh);
                   ir.create_splat (ir.get_int64 0) sh;
                   ir.create_icmpNE (ir.res n) (ir.res (S n))])
       end
  /\ (forall (w : width) (sn : SIGNEDNESS),
         bits w < 64 ->
         cast ptr (int_ w sn) st = (Raise AssertionError, st))
  /\ cast ptr float16 st = (Raise AssertionError, st)
  /\ cast ptr float32 st = (Raise AssertionError, st)
  /\ cast ptr float64 st = (Raise AssertionError, st)
  /\ (forall (e' : dtype) (space' : Z),
         dtype_eqb (pointer_type e space) (pointer_type e' space') = false ->
         cast ptr (pointer_type e' space') st
         = (Return (block (ir.res n) (tensor (pointer_type e' space') sh)),
            st ++ [ir.create_bitcast h (tensor (pointer_type e' space') sh)])).
Proof. exact (cast_pointer_cases e space sh h st). Qed.

Lemma cast_from_pointer_witness :
  bits W32 < 64 /\
  cast (block (ir.arg 0) (pointer_type float32 1)) int32 []
  = (Raise AssertionError, [])
  /\ dtype_eqb (pointer_type float32 1) (pointer_type int8 1) = false
  /\ cast (block (ir.arg 0) (pointer_type float32 1)) (pointer_type int8 1) []
     = (Return (block (ir.res 0) (pointer_type int8 1)),
        [ir.create_bitcast (ir.arg 0) (pointer_type int8 1)]).
Proof.
  pose proof (cast_from_pointer float32 1 [] (ir.arg 0) []) as H.
  cbv zeta in H.
  destruct H as (_ & _ & H32 & _ & _ & _ & Hp).
  split; [reflexivity|].
  split; [exact (H32 W32 SIGNED eq_refl)|].
  split; [reflexivity|].
  exact (Hp int8 1 eq_refl).
Defined.

Lemma cast_plain_to_pointer (a e : dtype) (space : Z) (sh : list Z)
    (h : ir.value) (st : ir.builder) :
  plain_kind a = true -> is_bf16 a = false ->
  cast (block h (tensor a sh)) (pointer_type e space) st
  = (Return (block (ir.res (List.length st)) (tensor (pointer_type e space) sh)),
     st ++ [ir.create_int_to_ptr h (tensor (pointer_type e space) sh)]).
Proof.
  intros Ha Hb. rewrite cast_unfold.
  destruct a as [| wa sa | | | | | ea aa | ea sha]; try discriminate Ha;
    try discriminate Hb; try destruct wa, sa; destruct sh; reflexivity.
Qed.

(** X8 (casts to a pointer).  From any integer kind and from Float16,
    Float32 or Float64 alike, a cast to a pointer type emits one
    integer-to-pointer conversion of the operand's handle. *)
Theorem cast_to_pointer (a e : dtype) (space : Z) (sh : list Z)
    (h : ir.value) (st : ir.builder) :
  plain_kind a = true -> is_bf16 a = false ->
  cast (block h (tensor a sh)) (pointer_type e space) st
  = (Return (block (ir.res (List.length st)) (tensor (pointer_type e space) sh)),
     st ++ [ir.create_int_to_ptr h (tensor (pointer_type e space) sh)]).
Proof. apply cast_plain_to_pointer. Qed.

Lemma cast_to_pointer_witness :
  plain_kind float32 = true /\ is_bf16 float32 = false /\
  cast (block (ir.arg 0) float32) (pointer_type int8 1) []
  = (Return (block (ir.res 0) (pointer_type int8 1)),
     [ir.create_int_to_ptr (ir.arg 0) (pointer_type int8 1)]).
Proof.
  split; [reflexivity|]. split; [reflexivity|].
  exact (cast_to_pointer float32 int8 1 [] (ir.arg 0) [] eq_refl eq_refl).
Defined.

(** X9 (the type of what a cast returns).  Whenever a cast of a value of
    kind [a] to the kind [k] returns, the value returned has the kind [k]
    at the shape of the operand - except for a pointer cast to the
    boolean, whose result has the kind Int64. *)
Theorem cast_result_type (a k : dtype) (sh : list Z) (h : ir.value)
    (st st' : ir.builder) (y : pyobj) :
  is_kind a = true -> is_kind k = true ->
  cast (block h (tensor a sh)) k st = (Return y, st') ->
  exists v : ir.value,
    y = block v (if is_ptr a && is_bool k then tensor int64 sh
                 else tensor k sh).
Proof.
  intros Ka Kk H.
  destruct (dtype_eqb a k) eqn:E.
  - apply dtype_eqb_eq in E; subst k.
    rewrite cast_unfold, cast_body_same in H by assumption. injection H as <- _.
    exists h. destruct a; try discriminate Ka; reflexivity.
  - destruct (is_ptr a) eqn:Pa.
    + destruct a as [| | | | | | e space |]; try discriminate Pa.
      pose proof (cast_pointer_cases e space sh h st) as F. cbv zeta in F.
      destruct F as (F64 & F1 & Fw & F16 & F32 & Ff64 & Fp).
      destruct k as [| wk sk | | | | | ek ak | ek shk]; try discriminate Kk.
      * rewrite F1 in H. destruct sh; injection H as <- _; eexists; reflexivity.
      * destruct wk;
          try (rewrite Fw in H by (simpl; lia); discriminate H).
        rewrite F64 in H. injection H as <- _. eexists; reflexivity.
      * rewrite F16 in H; discriminate H.
      * rewrite cast_unfold in H. destruct sh; discriminate H.
      * rewrite F32 in H; discriminate H.
      * rewrite Ff64 in H; discriminate H.
      * rewrite Fp in H by assumption. injection H as <- _.
        eexists; reflexivity.
    + cbn [andb].
      destruct (is_ptr k) eqn:Pk.
      * destruct k as [| | | | | | ek ak |]; try discriminate Pk.
        destruct (is_bf16 a) eqn:Ba.
        -- destruct a; try discriminate Ba. rewrite cast_unfold in H.
           destruct sh; discriminate H.
        -- rewrite cast_plain_to_pointer in H
             by (try assumption; destruct a; try discriminate; reflexivity).
           injection H as <- _. eexists; reflexivity.
      * assert (Ha : plain_kind a = true)
          by (destruct a; try discriminate; reflexivity).
        assert (Hk : plain_kind k = true)
          by (destruct k; try discriminate; reflexivity).
        destruct (through_float32 a k) eqn:T.
        -- rewrite cast_unfold in H.
           destruct a as [| wa sa | | | | | ea aa | ea sha]; try discriminate Ha;
             destruct k as [| wk sk | | | | | ek ak | ek shk];
             try discriminate Hk; try discriminate T; try discriminate E;
             destruct sh; discriminate H.
        -- rewrite cast_plain in H by (try assumption; rewrite T, E; reflexivity).
           injection H as <- _. eexists; reflexivity.
Qed.

Lemma cast_result_type_witness :
  is_kind (pointer_type float32 1) = true /\ is_kind int1 = true /\
  cast (block (ir.arg 0) (pointer_type float32 1)) int1 []
  = (Return (block (ir.res 1) int64),
     [ir.create_cast_PtrToInt (ir.arg 0) int64;
      ir.create_icmpNE (ir.res 0) (ir.get_int64 0)])
  /\ exists v : ir.value, block (ir.res 1) int64 = block v int64.
Proof.
  split; [reflexivity|]. split; [reflexivity|]. split; [reflexivity|].
  exact (cast_result_type (pointer_type float32 1) int1 [] (ir.arg 0) [] _ _
           eq_refl eq_refl eq_refl).
Defined.

(** X10 (the depth of the recursion of cast).  A cast gives the same
    result under every recursion limit of at least two nested
    activations. *)
Theorem cast_recursion_depth (n m : nat) (input : pyobj) (dst_ty : dtype)
    (st : ir.builder) :
  cast_fuel (S (S n)) input dst_ty st = cast_fuel (S (S m)) input dst_ty st.
Proof. rewrite (cast_fuel_enough n), (cast_fuel_enough m). reflexivity. Qed.

(** ** Bitcasts *)

Lemma bitcast_plain (a k : dtype) (sh : list Z) (h : ir.value)
    (st : ir.builder) :
  plain_kind a = true -> plain_kind k = true ->
  bitcast (block h (tensor a sh)) k st
  = if dtype_eqb a k then (Return (block h (tensor a sh)), st)
    else if storage_bits a =? storage_bits k then
      (Return (block (ir.res (List.length st)) (tensor k sh)),
       st ++ [ir.create_bitcast h (tensor k sh)])
    else
      (Raise (ValueError [Str "Cannot bitcast data-type of size ";
                          Num (storage_bits a);
                          Str "to data-type of size ";
                          Num (storage_bits k)]), st).
Proof.
  intros Ha Hk. unfold bitcast, bind. cbn [type_of ret].
  rewrite is_block_tensor by (apply plain_kind_is_kind; assumption).
  pose proof (dtype_eqb_tensor a k sh) as T.
  destruct (dtype_eqb a k) eqn:E.
  - destruct sh as [|z sh]; cbn [tensor get_block_shapes lift ret] in *;
      rewrite T; reflexivity.
  - destruct sh as [|z sh]; cbn [tensor get_block_shapes lift ret] in *;
      rewrite T;
      destruct a as [| wa sa | | | | | ea aa | ea sha]; try discriminate Ha;
      destruct k as [| wk sk | | | | | ek ak | ek shk]; try discriminate Hk;
      try destruct wa, sa; try destruct wk, sk; reflexivity.
Qed.

(** X11 (bitcast between plain kinds).  A bitcast of a value to its own
    kind returns the value and emits nothing; between two different
    integer or floating kinds (BFloat16 included) it emits one bitcast to
    the destination kind at the operand's shape when the two storage
    widths are equal, and otherwise raises [ValueError] with the two
    widths and emits nothing. *)
Theorem bitcast_plain_kinds (a k : dtype) (sh : list Z) (h : ir.value)
    (st : ir.builder) :
  plain_kind a = true -> plain_kind k = true ->
  bitcast (block h (tensor a sh)) k st
  = if dtype_eqb a k then (Return (block h (tensor a sh)), st)
    else if storage_bits a =? storage_bits k then
      (Return (block (ir.res (List.length st)) (tensor k sh)),
       st ++ [ir.create_bitcast h (tensor k sh)])
    else
      (Raise (ValueError [Str "Cannot bitcast data-type of size ";
                          Num (storage_bits a);
                          Str "to data-type of size ";
                          Num (storage_bits k)]), st).
Proof. apply bitcast_plain. Qed.

Lemma bitcast_plain_kinds_witness :
  plain_kind bfloat16 = true /\ plain_kind int16 = true /\
  bitcast (block (ir.arg 0) (block_type bfloat16 [4])) int16 []
  = (Return (block (ir.res 0) (block_type int16 [4])),
     [ir.create_bitcast (ir.arg 0) (block_type int16 [4])])
  /\ bitcast (block (ir.arg 0) (block_type float32 [4])) int64 []
     = (Raise (ValueError [Str "Cannot bitcast data-type of size "; Num 32;
                           Str "to data-type of size "; Num 64]), []).
Proof.
  split; [reflexivity|]. split; [reflexivity|]. split.
  - exact (bitcast_plain_kinds bfloat16 int16 [4] (ir.arg 0) []
             eq_refl eq_refl).
  - exact (bitcast_plain_kinds float32 int64 [4] (ir.arg 0) []
             eq_refl eq_refl).
Defined.

(** ** More on broadcasting *)

(** X12 (broadcast to a given shape checks no axis).  A block is
    broadcast by [broadcast_impl_shape] to any different shape of its own
    rank, compatible or not: one broadcast is emitted and its bare result
    is returned. *)
Theorem broadcast_impl_shape_unchecked (e : dtype) (l r : list Z)
    (h : ir.value) (st : ir.builder) :
  l <> [] -> List.length l = List.length r -> l <> r ->
  broadcast_impl_shape (block h (block_type e l)) r st
  = (Return (raw (ir.res (List.length st))),
     st ++ [ir.create_broadcast h r]).
Proof.
  intros Hl Hlen Hne. destruct l as [|a l]; [contradiction|].
  unfold broadcast_impl_shape, bind.
  cbn [type_of ret is_block negb get_block_shapes lift as_ir].
  rewrite Hlen, Nat.eqb_refl. cbn [negb].
  destruct (shape_eqb r (a :: l)) eqn:E; [|reflexivity].
  apply shape_eqb_eq in E. congruence.
Qed.

Lemma broadcast_impl_shape_unchecked_witness :
  [2] <> [] /\ List.length [2] = List.length [3] /\ [2] <> [3] /\
  broadcast_impl_shape (block (ir.arg 0) (block_type float32 [2])) [3] []
  = (Return (raw (ir.res 0)), [ir.create_broadcast (ir.arg 0) [3]])
  /\ broadcast_impl_value (block (ir.arg 0) (block_type float32 [2]))
                          (block (ir.arg 1) (block_type float32 [3])) []
     = (Raise (ValueError (incompatible_dimensions_message 0 2 3)), []).
Proof.
  split; [discriminate|]. split; [reflexivity|]. split; [discriminate|].
  split; [|reflexivity].
  exact (broadcast_impl_shape_unchecked float32 [2] [3] (ir.arg 0) []
           ltac:(discriminate) eq_refl ltac:(discriminate)).
Defined.

Lemma broadcast_impl_value_one_shape (e1 e2 : dtype) (s : list Z)
    (h1 h2 : ir.value) (st : ir.builder) :
  broadcast_impl_value (block h1 (block_type e1 s)) (block h2 (block_type e2 s))
                       st
  = (Return (block h1 (block_type e1 s), block h2 (block_type e2 s)), st).
Proof.
  destruct s as [|z s]; [reflexivity|].
  unfold broadcast_impl_value, bind.
  cbn [type_of ret is_block negb andb get_block_shapes lift].
  rewrite Nat.eqb_refl; cbn [negb].
  rewrite ret_shape_loop_same, shape_eqb_refl; reflexivity.
Qed.

Lemma broadcast_impl_value_one_type (t : dtype) (h1 h2 : ir.value)
    (st : ir.builder) :
  broadcast_impl_value (block h1 t) (block h2 t) st
  = (Return (block h1 t, block h2 t), st).
Proof.
  destruct (is_block t) eqn:B.
  - destruct t as [| | | | | | |e s]; try discriminate B.
    apply broadcast_impl_value_one_shape.
  - unfold broadcast_impl_value, bind. cbn [type_of ret]. rewrite B.
    reflexivity.
Qed.

(** X13 (broadcasting twice).  Whatever two typed operands
    [broadcast_impl_value] returns, broadcasting the two returned values
    again returns them unchanged and emits nothing. *)
Theorem broadcast_impl_value_idempotent (tl tr : dtype) (hl hr : ir.value)
    (st st' : ir.builder) (lhs' rhs' : pyobj) :
  broadcast_impl_value (block hl tl) (block hr tr) st
  = (Return (lhs', rhs'), st') ->
  broadcast_impl_value lhs' rhs' st' = (Return (lhs', rhs'), st').
Proof.
  intros H.
  destruct (is_block tl) eqn:Bl; destruct (is_block tr) eqn:Br.
  - destruct tl as [| | | | | | |el l]; try discriminate Bl.
    destruct tr as [| | | | | | |er r]; try discriminate Br.
    rewrite broadcast_impl_value_blocks in H
      by (intros ->; discriminate).
    destruct (shape_compatible l r) as [shape|err]; [|discriminate H].
    cbv zeta in H. injection H as <- <- <-.
    apply broadcast_impl_value_one_shape.
  - destruct tl as [| | | | | | |el [|z l]]; try discriminate Bl.
    unfold broadcast_impl_value, bind in H.
    cbn [type_of ret is_block] in H. rewrite Br in H.
    cbn -[broadcast_impl_value] in H. injection H as <- <- <-.
    apply broadcast_impl_value_one_type.
  - destruct tr as [| | | | | | |er [|z r]]; try discriminate Br.
    unfold broadcast_impl_value, bind in H.
    cbn [type_of ret is_block] in H. rewrite Bl in H.
    cbn -[broadcast_impl_value] in H. injection H as <- <- <-.
    apply broadcast_impl_value_one_type.
  - pose proof H as H0.
    unfold broadcast_impl_value, bind in H.
    cbn [type_of ret] in H. rewrite Bl, Br in H.
    cbn -[broadcast_impl_value] in H. injection H as <- <- <-.
    exact H0.
Qed.

Lemma broadcast_impl_value_idempotent_witness :
  broadcast_impl_value (block (ir.arg 0) (block_type float32 [1; 5]))
                       (block (ir.arg 1) (block_type int32 [3; 1])) []
  = (Return (block (ir.res 0) (block_type float32 [3; 5]),
             block (ir.res 1) (block_type int32 [3; 5])),
     [ir.create_broadcast (ir.arg 0) [3; 5];
      ir.create_broadcast (ir.arg 1) [3; 5]])
  /\ broadcast_impl_value (block (ir.res 0) (block_type float32 [3; 5]))
                          (block (ir.res 1) (block_type int32 [3; 5]))
       [ir.create_broadcast (ir.arg 0) [3; 5];
        ir.create_broadcast (ir.arg 1) [3; 5]]
     = (Return (block (ir.res 0) (block_type float32 [3; 5]),
                block (ir.res 1) (block_type int32 [3; 5])),
        [ir.create_broadcast (ir.arg 0) [3; 5];
         ir.create_broadcast (ir.arg 1) [3; 5]]).
Proof.
  split; [reflexivity|].
  exact (broadcast_impl_value_idempotent
           (block_type float32 [1; 5]) (block_type int32 [3; 1])
           (ir.arg 0) (ir.arg 1) []
           [ir.create_broadcast (ir.arg 0) [3; 5];
            ir.create_broadcast (ir.arg 1) [3; 5]]
           (block (ir.res 0) (block_type float32 [3; 5]))
           (block (ir.res 1) (block_type int32 [3; 5])) eq_refl).
Defined.

Lemma compatible_axis_sym (a b : Z) : compatible_axis a b = compatible_axis b a.
Proof.
  unfold compatible_axis. rewrite (Z.eqb_sym a b).
  destruct (a =? 1), (b =? 1), (b =? a); reflexivity.
Qed.

Lemma resolve_axis_sym (a b : Z) :
  compatible_axis a b = true -> resolve_axis a b = resolve_axis b a.
Proof.
  unfold compatible_axis, resolve_axis. intros H.
  destruct (a =? 1) eqn:Ea; destruct (b =? 1) eqn:Eb;
    destruct (a =? b) eqn:Eab; try discriminate H;
    rewrite ?Z.eqb_eq, ?Z.eqb_neq in *; congruence.
Qed.

Lemma offending_axis_sym (l r : list Z) (i : Z) :
  offending_axis i l r = None ->
  offending_axis i r l = None
  /\ map (fun ab => resolve_axis (fst ab) (snd ab)) (combine l r)
     = map (fun ab => resolve_axis (fst ab) (snd ab)) (combine r l).
Proof.
  revert r i; induction l as [|a l IH]; intros [|b r] i H; simpl in *;
    try (split; reflexivity).
  rewrite compatible_axis_sym.
  destruct (compatible_axis a b) eqn:C; [|discriminate H].
  destruct (IH r (i + 1) H) as [H1 H2].
  split; [assumption|]. rewrite H2, (resolve_axis_sym a b C). reflexivity.
Qed.

Lemma shape_compatible_sym (l r shape : list Z) :
  shape_compatible l r = Return shape -> shape_compatible r l = Return shape.
Proof.
  unfold shape_compatible. rewrite (Nat.eqb_sym (List.length r)).
  destruct (Nat.eqb (List.length l) (List.length r)); [|discriminate].
  cbn [negb].
  destruct (offending_axis 0 l r) as [[[j x] y]|] eqn:O; [discriminate|].
  destruct (offending_axis_sym l r 0 O) as [O' M]. rewrite O', M. auto.
Qed.

(** X14 (broadcasting does not depend on the order of the operands).
    When [broadcast_impl_value] returns on two typed operands, it also
    returns on the same operands in the other order, and each operand
    comes back with the same type in both orders. *)
Theorem broadcast_impl_value_symmetric (tl tr : dtype) (hl hr : ir.value)
    (st st1 : ir.builder) (x y : pyobj) :
  broadcast_impl_value (block hl tl) (block hr tr) st = (Return (x, y), st1) ->
  exists (x' y' : pyobj) (st2 : ir.builder),
    broadcast_impl_value (block hr tr) (block hl tl) st
    = (Return (y', x'), st2)
    /\ static_type x' = static_type x /\ static_type y' = static_type y.
Proof.
  intros H.
  destruct (is_block tl) eqn:Bl; destruct (is_block tr) eqn:Br.
  - destruct tl as [| | | | | | |el l]; try discriminate Bl.
    destruct tr as [| | | | | | |er r]; try discriminate Br.
    assert (Hl : l <> []) by (intros ->; discriminate).
    assert (Hr : r <> []) by (intros ->; discriminate).
    rewrite broadcast_impl_value_blocks in H by assumption.
    rewrite broadcast_impl_value_blocks by assumption.
    destruct (shape_compatible l r) as [shape|err] eqn:S; [|discriminate H].
    rewrite (shape_compatible_sym l r shape S).
    cbv zeta in *. injection H as <- <- <-.
    do 3 eexists. split; [reflexivity|]. split; reflexivity.
  - destruct tl as [| | | | | | |el [|z l]]; try discriminate Bl.
    unfold broadcast_impl_value, bind in *.
    cbn [type_of ret is_block] in *. rewrite Br in *.
    cbn -[broadcast_impl_value] in *. injection H as <- <- <-.
    do 3 eexists. split; [reflexivity|]. split; reflexivity.
  - destruct tr as [| | | | | | |er [|z r]]; try discriminate Br.
    unfold broadcast_impl_value, bind in *.
    cbn [type_of ret is_block] in *. rewrite Bl in *.
    cbn -[broadcast_impl_value] in *. injection H as <- <- <-.
    do 3 eexists. split; [reflexivity|]. split; reflexivity.
  - unfold broadcast_impl_value, bind in *.
    cbn [type_of ret] in *. rewrite Bl, Br in *.
    cbn -[broadcast_impl_value] in *. injection H as <- <- <-.
    do 3 eexists. split; [reflexivity|]. split; reflexivity.
Qed.

Lemma broadcast_impl_value_symmetric_witness :
  broadcast_impl_value (block (ir.arg 0) (block_type float32 [1; 5]))
                       (block (ir.arg 1) (block_type int32 [3; 1])) []
  = (Return (block (ir.res 0) (block_type float32 [3; 5]),
             block (ir.res 1) (block_type int32 [3; 5])),
     [ir.create_broadcast (ir.arg 0) [3; 5];
      ir.create_broadcast (ir.arg 1) [3; 5]])
  /\ exists (x' y' : pyobj) (st2 : ir.builder),
       broadcast_impl_value (block (ir.arg 1) (block_type int32 [3; 1]))
                            (block (ir.arg 0) (block_type float32 [1; 5])) []
       = (Return (y', x'), st2)
       /\ static_type x' = Some (block_type float32 [3; 5])
       /\ static_type y' = Some (block_type int32 [3; 5]).
Proof.
  split; [reflexivity|].
  exact (broadcast_impl_value_symmetric
           (block_type float32 [1; 5]) (block_type int32 [3; 1])
           (ir.arg 0) (ir.arg 1) []
           [ir.create_broadcast (ir.arg 0) [3; 5];
            ir.create_broadcast (ir.arg 1) [3; 5]]
           (block (ir.res 0) (block_type float32 [3; 5]))
           (block (ir.res 1) (block_type int32 [3; 5])) eq_refl).
Defined.

(** ** Operators on plain kinds *)

Lemma computation_type_impl_plain (a b : dtype) (div_or_mod : bool)
    (c : dtype) :
  plain_kind a = true -> plain_kind b = true ->
  is_bf16 a = false -> is_bf16 b = false ->
  computation_type_impl a b div_or_mod = Return c ->
  plain_kind c = true /\ is_bf16 c = false /\ is_ptr c = false
  /\ dtype_eqb a c || negb (through_float32 a c) = true
  /\ dtype_eqb b c || negb (through_float32 b c) = true
  /\ (is_floating c = true ->
      fp_rank c >= fp_rank a /\ fp_rank c >= fp_rank b).
Proof.
  intros Ha Hb Ba Bb H.
  destruct a as [| wa sa | | | | | ea aa | ea sha]; try discriminate Ha;
    try discriminate Ba;
    destruct b as [| wb sb | | | | | eb ab | eb shb]; try discriminate Hb;
    try discriminate Bb;
    try destruct wa, sa; try destruct wb, sb;
    destruct div_or_mod; vm_compute in H; try discriminate H;
    injection H as <-; repeat split; intros; try discriminate; reflexivity.
Qed.

Lemma computation_type_impl_plain_returns (a b : dtype) :
  plain_kind a = true -> plain_kind b = true ->
  is_bf16 a = false -> is_bf16 b = false ->
  exists c : dtype, computation_type_impl a b false = Return c.
Proof.
  intros Ha Hb Ba Bb.
  destruct a as [| wa sa | | | | | ea aa | ea sha]; try discriminate Ha;
    try discriminate Ba;
    destruct b as [| wb sb | | | | | eb ab | eb shb]; try discriminate Hb;
    try discriminate Bb;
    try destruct wa, sa; try destruct wb, sb; eexists; reflexivity.
Qed.

Lemma plain_kind_not_ptr (k : dtype) : plain_kind k = true -> is_ptr k = false.
Proof. intros H; destruct k; try discriminate H; reflexivity. Qed.

Lemma check_ptr_type_impl_plain (a b : dtype) (allow : bool) :
  plain_kind a = true -> check_ptr_type_impl a b allow = Return tt.
Proof. intros H; destruct a; try discriminate H; reflexivity. Qed.

Lemma binary_op_type_checking_impl_plain (a b : dtype) (sh : list Z)
    (hl hr : ir.value) (allow_lhs_ptr allow_rhs_ptr div_or_mod : bool)
    (st : ir.builder) :
  plain_kind a = true -> plain_kind b = true ->
  is_bf16 a = false -> is_bf16 b = false ->
  binary_op_type_checking_impl (block hl (tensor a sh)) (block hr (tensor b sh))
    allow_lhs_ptr allow_rhs_ptr true div_or_mod st
  = match computation_type_impl a b div_or_mod with
    | Return c =>
        let st1 := st ++ cast_instr a c hl sh in
        (Return (block (cast_value a c hl (List.length st)) (tensor c sh),
                 block (cast_value b c hr (List.length st1)) (tensor c sh)),
         st1 ++ cast_instr b c hr sh)
    | Raise e => (Raise e, st)
    end.
Proof.
  intros Ha Hb Ba Bb.
  pose proof (plain_kind_is_kind a Ha) as Ka.
  pose proof (plain_kind_is_kind b Hb) as Kb.
  unfold binary_op_type_checking_impl, binary_op_type_checking_impl_with, bind.
  rewrite broadcast_impl_value_same_shape by assumption.
  cbn [type_of ret]. rewrite !scalar_tensor by assumption.
  unfold lift. rewrite !check_ptr_type_impl_plain by assumption.
  rewrite !plain_kind_not_ptr by assumption. cbn [andb negb].
  destruct (computation_type_impl a b div_or_mod) as [c|e] eqn:C;
    [|reflexivity].
  destruct (computation_type_impl_plain a b div_or_mod c Ha Hb Ba Bb C)
    as (Hc & _ & _ & Ta & Tb & _).
  rewrite cast_plain by assumption.
  rewrite cast_plain by assumption.
  reflexivity.
Qed.

(** X15 (operands after type checking).  On two operands of one shape
    and of integer or floating kinds other than BFloat16, the arithmetic
    type check fails exactly when [computation_type_impl] does, with its
    exception and nothing emitted; otherwise it casts each operand whose
    kind differs from the computation type, and returns both operands
    with the computation type at their shape. *)
Theorem binary_op_type_checking_impl_common_type (a b : dtype) (sh : list Z)
    (hl hr : ir.value) (allow_lhs_ptr allow_rhs_ptr div_or_mod : bool)
    (st : ir.builder) :
  plain_kind a = true -> plain_kind b = true ->
  is_bf16 a = false -> is_bf16 b = false ->
  binary_op_type_checking_impl (block hl (tensor a sh)) (block hr (tensor b sh))
    allow_lhs_ptr allow_rhs_ptr true div_or_mod st
  = match computation_type_impl a b div_or_mod with
    | Return c =>
        let st1 := st ++ cast_instr a c hl sh in
        (Return (block (cast_value a c hl (List.length st)) (tensor c sh),
                 block (cast_value b c hr (List.length st1)) (tensor c sh)),
         st1 ++ cast_instr b c hr sh)
    | Raise e => (Raise e, st)
    end.
Proof. apply binary_op_type_checking_impl_plain. Qed.

Lemma binary_op_type_checking_impl_common_type_witness :
  plain_kind float16 = true /\ plain_kind int32 = true /\
  is_bf16 float16 = false /\ is_bf16 int32 = false /\
  binary_op_type_checking_impl (block (ir.arg 0) (block_type float16 [4]))
    (block (ir.arg 1) (block_type int32 [4])) false false true true []
  = (Return (block (ir.res 0) (block_type float32 [4]),
             block (ir.res 1) (block_type float32 [4])),
     [ir.create_fp_ext (ir.arg 0) (block_type float32 [4]);
      ir.create_si_to_fp (ir.arg 1) (block_type float32 [4])]).
Proof.
  repeat (split; [reflexivity|]).
  exact (binary_op_type_checking_impl_common_type float16 int32 [4]
           (ir.arg 0) (ir.arg 1) false false true []
           eq_refl eq_refl eq_refl eq_refl).
Defined.

Ltac plain_facts a b m c C :=
  match goal with
  | Ha : plain_kind a = true, Hb : plain_kind b = true,
    Ba : is_bf16 a = false, Bb : is_bf16 b = false |- _ =>
      destruct (computation_type_impl_plain a b m c Ha Hb Ba Bb C)
        as (?Hc & ?Bc & ?Pc & _ & _ & ?Rc);
      pose proof (plain_kind_is_kind c ltac:(assumption)) as ?Kc
  end.

(** X16 (addition on plain kinds).  On two operands of one shape and of
    integer or floating kinds other than BFloat16, [add] never raises -
    integer kinds of different signedness included: it casts the operands
    to the computation type, emits a floating add if that type is
    floating and an integer add otherwise, and returns the result with
    the computation type. *)
Theorem add_plain_kinds (a b : dtype) (sh : list Z) (hl hr : ir.value)
    (st : ir.builder) :
  plain_kind a = true -> plain_kind b = true ->
  is_bf16 a = false -> is_bf16 b = false ->
  (exists c : dtype, computation_type_impl a b false = Return c)
  /\ add (block hl (tensor a sh)) (block hr (tensor b sh)) st
     = match computation_type_impl a b false with
       | Return c =>
           let st1 := st ++ cast_instr a c hl sh in
           let st2 := st1 ++ cast_instr b c hr sh in
           let x := cast_value a c hl (List.length st) in
           let y := cast_value b c hr (List.length st1) in
           (Return (block (ir.res (List.length st2)) (tensor c sh)),
            st2 ++ [if is_floating c then ir.create_fadd x y
                    else ir.create_add x y])
       | Raise e => (Raise e, st)
       end.
Proof.
  intros Ha Hb Ba Bb.
  destruct (computation_type_impl_plain_returns a b Ha Hb Ba Bb) as [c C].
  split; [exists c; assumption|].
  plain_facts a b false c C.
  unfold add, bind.
  rewrite binary_op_type_checking_impl_plain, C by assumption.
  cbv zeta. cbn [type_of ret]. rewrite !scalar_tensor by assumption.
  rewrite Pc. cbn [andb].
  destruct c as [| wc sc | | | | | ec ac | ec shc]; try discriminate Hc;
    reflexivity.
Qed.

Lemma add_plain_kinds_witness :
  plain_kind int32 = true /\ plain_kind uint32 = true /\
  is_bf16 int32 = false /\ is_bf16 uint32 = false /\
  add (block (ir.arg 0) (block_type int32 [4]))
      (block (ir.arg 1) (block_type uint32 [4])) []
  = (Return (block (ir.res 1) (block_type uint32 [4])),
     [ir.create_int_cast (ir.arg 0) (block_type uint32 [4]) true;
      ir.create_add (ir.res 0) (ir.arg 1)]).
Proof.
  repeat (split; [reflexivity|]).
  exact (proj2 (add_plain_kinds int32 uint32 [4] (ir.arg 0) (ir.arg 1) []
                  eq_refl eq_refl eq_refl eq_refl)).
Defined.

Lemma truediv_plain (a b : dtype) (sh : list Z) (hl hr : ir.value)
    (st : ir.builder) :
  plain_kind a = true -> plain_kind b = true ->
  is_bf16 a = false -> is_bf16 b = false ->
  truediv (block hl (tensor a sh)) (block hr (tensor b sh)) st
  = match computation_type_impl a b true with
    | Return c =>
        let st1 := st ++ cast_instr a c hl sh in
        let st2 := st1 ++ cast_instr b c hr sh in
        let x := cast_value a c hl (List.length st) in
        let y := cast_value b c hr (List.length st1) in
        let n := List.length st2 in
        if is_int c then
          (Return (block (ir.res (S (S n))) (tensor float32 sh)),
           st2 ++ [int_to_fp c x (tensor float32 sh);
                   int_to_fp c y (tensor float32 sh);
                   ir.create_fdiv (ir.res n) (ir.res (S n))])
        else
          (Return (block (ir.res n) (tensor c sh)),
           st2 ++ [ir.create_fdiv x y])
    | Raise e => (Raise e, st)
    end.
Proof.
  intros Ha Hb Ba Bb.
  unfold truediv, bind.
  rewrite binary_op_type_checking_impl_plain by assumption.
  destruct (computation_type_impl a b true) as [c|e] eqn:C; [|reflexivity].
  plain_facts a b true c C.
  cbv zeta. cbn [type_of ret]. rewrite !scalar_tensor by assumption.
  destruct (is_int c) eqn:Ic.
  - replace (is_floating c) with false
      by (destruct c; try discriminate Ic; reflexivity).
    cbn [andb].
    rewrite cast_int_float32 by assumption.
    rewrite cast_int_float32 by assumption.
    cbn [handle_of ret emit type_of]. unfold ret.
    rewrite <- !app_assoc. cbn [app].
    rewrite !length_app. cbn [List.length].
    repeat f_equal; lia.
  - assert (Fc : is_floating c = true)
      by (destruct c; try discriminate Hc; try discriminate Ic; reflexivity).
    rewrite Fc. cbn [andb]. unfold lift.
    replace (get_fp_mantissa_width c) with (Return (fp_rank c))
      by (destruct c; try discriminate Fc; reflexivity).
    cbn [rbind]. rewrite Z.gtb_ltb, Z.ltb_irrefl.
    rewrite cast_unfold, cast_body_same by assumption.
    reflexivity.
Qed.

(** X17 (the kind of a true division).  On two operands of one shape and
    of integer or floating kinds other than BFloat16, whenever [truediv]
    returns, its result has the kind Float32 or Float64 at the shape of
    the operands - Float16 operands are divided in Float32 - and whenever
    it raises, the exception is the one of [computation_type_impl] under
    [div_or_mod] and nothing was emitted. *)
Theorem truediv_result_kind (a b : dtype) (sh : list Z) (hl hr : ir.value)
    (st : ir.builder) :
  plain_kind a = true -> plain_kind b = true ->
  is_bf16 a = false -> is_bf16 b = false ->
  match truediv (block hl (tensor a sh)) (block hr (tensor b sh)) st with
  | (Return r, _) =>
      exists v : ir.value,
        r = block v (tensor float32 sh) \/ r = block v (tensor float64 sh)
  | (Raise e, st') =>
      computation_type_impl a b true = Raise e /\ st' = st
  end.
Proof.
  intros Ha Hb Ba Bb. rewrite truediv_plain by assumption.
  destruct (computation_type_impl a b true) as [c|e] eqn:C;
    [|split; reflexivity].
  cbv zeta. destruct (is_int c) eqn:Ic.
  - eexists. left. reflexivity.
  - eexists.
    destruct a as [| wa sa | | | | | ea aa | ea sha]; try discriminate Ha;
      try discriminate Ba;
      destruct b as [| wb sb | | | | | eb ab | eb shb]; try discriminate Hb;
      try discriminate Bb;
      try destruct wa, sa; try destruct wb, sb;
      vm_compute in C; try discriminate C; injection C as <-;
      try discriminate Ic;
      first [left; reflexivity | right; reflexivity].
Qed.

Lemma truediv_result_kind_witness :
  plain_kind float16 = true /\ plain_kind int32 = true /\
  is_bf16 float16 = false /\ is_bf16 int32 = false /\
  truediv (block (ir.arg 0) (block_type float16 [4]))
          (block (ir.arg 1) (block_type int32 [4])) []
  = (Return (block (ir.res 2) (block_type float32 [4])),
     [ir.create_fp_ext (ir.arg 0) (block_type float32 [4]);
      ir.create_si_to_fp (ir.arg 1) (block_type float32 [4]);
      ir.create_fdiv (ir.res 0) (ir.res 1)])
  /\ exists v : ir.value,
       block (ir.res 2) (block_type float32 [4])
       = block v (tensor float32 [4])
       \/ block (ir.res 2) (block_type float32 [4])
          = block v (tensor float64 [4]).
Proof.
  repeat (split; [reflexivity|]).
  exact (truediv_result_kind float16 int32 [4] (ir.arg 0) (ir.arg 1) []
           eq_refl eq_refl eq_refl eq_refl).
Defined.

(** X18 (remainder on plain kinds).  On two operands of one shape and of
    integer or floating kinds other than BFloat16, [mod] fails exactly
    when [computation_type_impl] under [div_or_mod] does, with its
    exception and nothing emitted - the signedness test of [mod] itself
    never fires; otherwise it emits the floating remainder if the
    computation type is floating, the signed remainder if it is a signed
    integer and the unsigned remainder if it is unsigned, and returns the
    result with the computation type. *)
Theorem mod_plain_kinds (a b : dtype) (sh : list Z) (hl hr : ir.value)
    (st : ir.builder) :
  plain_kind a = true -> plain_kind b = true ->
  is_bf16 a = false -> is_bf16 b = false ->
  mod_ (block hl (tensor a sh)) (block hr (tensor b sh)) st
  = match computation_type_impl a b true with
    | Return c =>
        let st1 := st ++ cast_instr a c hl sh in
        let st2 := st1 ++ cast_instr b c hr sh in
        let x := cast_value a c hl (List.length st) in
        let y := cast_value b c hr (List.length st1) in
        (Return (block (ir.res (List.length st2)) (tensor c sh)),
         st2 ++ [if is_floating c then ir.create_frem x y
                 else if is_int_signed c then ir.create_srem x y
                 else ir.create_urem x y])
    | Raise e => (Raise e, st)
    end.
Proof.
  intros Ha Hb Ba Bb.
  unfold mod_, bind.
  rewrite binary_op_type_checking_impl_plain by assumption.
  destruct (computation_type_impl a b true) as [c|e] eqn:C; [|reflexivity].
  plain_facts a b true c C.
  cbv zeta. cbn [type_of ret]. rewrite !scalar_tensor by assumption.
  destruct c as [| wc sc | | | | | ec ac | ec shc]; try discriminate Hc;
    try discriminate Bc; try reflexivity.
  destruct sc; reflexivity.
Qed.

Lemma mod_plain_kinds_witness :
  plain_kind float16 = true /\ plain_kind uint8 = true /\
  is_bf16 float16 = false /\ is_bf16 uint8 = false /\
  mod_ (block (ir.arg 0) float16) (block (ir.arg 1) uint8) []
  = (Return (block (ir.res 2) float32),
     [ir.create_fp_ext (ir.arg 0) float32;
      ir.create_ui_to_fp (ir.arg 1) float32;
      ir.create_frem (ir.res 0) (ir.res 1)]).
Proof.
  repeat (split; [reflexivity|]).
  exact (mod_plain_kinds float16 uint8 [] (ir.arg 0) (ir.arg 1) []
           eq_refl eq_refl eq_refl eq_refl).
Defined.

(** X19 (less-than on plain kinds).  On two operands of one shape and of
    integer or floating kinds other than BFloat16, [less_than] never
    raises: it emits the ordered floating comparison, the signed or the
    unsigned integer comparison according to the computation type, and
    the value it returns carries the computation type of the operands,
    not the boolean kind. *)
Theorem less_than_plain_kinds (a b : dtype) (sh : list Z) (hl hr : ir.value)
    (st : ir.builder) :
  plain_kind a = true -> plain_kind b = true ->
  is_bf16 a = false -> is_bf16 b = false ->
  (exists c : dtype, computation_type_impl a b false = Return c)
  /\ less_than (block hl (tensor a sh)) (block hr (tensor b sh)) st
     = match computation_type_impl a b false with
       | Return c =>
           let st1 := st ++ cast_instr a c hl sh in
           let st2 := st1 ++ cast_instr b c hr sh in
           let x := cast_value a c hl (List.length st) in
           let y := cast_value b c hr (List.length st1) in
           (Return (block (ir.res (List.length st2)) (tensor c sh)),
            st2 ++ [if is_floating c then ir.create_fcmpOLT x y
                    else if is_int_signed c then ir.create_icmpSLT x y
                    else ir.create_icmpULT x y])
       | Raise e => (Raise e, st)
       end.
Proof.
  intros Ha Hb Ba Bb.
  destruct (computation_type_impl_plain_returns a b Ha Hb Ba Bb) as [c C].
  split; [exists c; assumption|].
  plain_facts a b false c C.
  unfold less_than, bind.
  rewrite binary_op_type_checking_impl_plain, C by assumption.
  cbv zeta. cbn [type_of ret]. rewrite !scalar_tensor by assumption.
  destruct c as [| wc sc | | | | | ec ac | ec shc]; try discriminate Hc;
    try discriminate Bc; try reflexivity.
  destruct sc; reflexivity.
Qed.

Lemma less_than_plain_kinds_witness :
  plain_kind int32 = true /\ plain_kind uint32 = true /\
  is_bf16 int32 = false /\ is_bf16 uint32 = false /\
  less_than (block (ir.arg 0) (block_type int32 [4]))
            (block (ir.arg 1) (block_type uint32 [4])) []
  = (Return (block (ir.res 1) (block_type uint32 [4])),
     [ir.create_int_cast (ir.arg 0) (block_type uint32 [4]) true;
      ir.create_icmpULT (ir.res 0) (ir.arg 1)]).
Proof.
  repeat (split; [reflexivity|]).
  exact (proj2 (less_than_plain_kinds int32 uint32 [4] (ir.arg 0) (ir.arg 1)
                  [] eq_refl eq_refl eq_refl eq_refl)).
Defined.

Lemma maybe_cast_promote (a c : dtype) (sh : list Z) (h : ir.value)
    (st : ir.builder) :
  is_int a = true -> is_int c = true ->
  (if negb (dtype_eqb c a) then cast (block h (tensor a sh)) c
   else ret (block h (tensor a sh))) st
  = (Return (block (promoted a c h (List.length st)) (tensor c sh)),
     st ++ promote_instr a c h sh).
Proof.
  intros Ha Hc. destruct (dtype_eqb c a) eqn:E; cbn [negb].
  - apply dtype_eqb_eq in E; subst c. unfold promoted, promote_instr.
    rewrite dtype_eqb_refl, app_nil_r. reflexivity.
  - apply cast_promote; assumption.
Qed.

Lemma and_plain (a b : dtype) (sh : list Z) (hl hr : ir.value)
    (st : ir.builder) :
  plain_kind a = true -> plain_kind b = true ->
  and_ (block hl (tensor a sh)) (block hr (tensor b sh)) st
  = if is_int a && is_int b then
      let c := promoted_type a b in
      let st1 := st ++ promote_instr a c hl sh in
      let st2 := st1 ++ promote_instr b c hr sh in
      (Return (block (ir.res (List.length st2)) (tensor c sh)),
       st2 ++ [ir.create_and (promoted a c hl (List.length st))
                             (promoted b c hr (List.length st1))])
    else (Raise (IncompatibleTypeErrorimpl a b), st).
Proof.
  intros Ha Hb.
  pose proof (plain_kind_is_kind a Ha) as Ka.
  pose proof (plain_kind_is_kind b Hb) as Kb.
  unfold and_, bitwise_op_type_checking_impl, binary_op_type_checking_impl,
    binary_op_type_checking_impl_with, bind.
  rewrite broadcast_impl_value_same_shape by assumption.
  cbn [type_of ret]. rewrite !scalar_tensor by assumption.
  unfold lift. rewrite !check_ptr_type_impl_plain by assumption.
  cbn [andb type_of ret]. rewrite !scalar_tensor by assumption.
  destruct (is_int a) eqn:Ia; [|reflexivity].
  destruct (is_int b) eqn:Ib; [|reflexivity].
  cbn [negb orb andb].
  destruct (integer_promote_impl_int a b Ia Ib) as [P Ic]. rewrite P.
  rewrite maybe_cast_promote by assumption.
  rewrite maybe_cast_promote by assumption.
  reflexivity.
Qed.

(** X20 (bitwise and on plain kinds).  On two operands of one shape:
    two integer kinds, of whatever signedness, are promoted by integer
    promotion alone and one [and] is emitted on the promoted operands,
    its result typed with the promoted kind; as soon as one operand is
    floating, [and_] raises [IncompatibleTypeErrorimpl] on the two kinds
    and emits nothing. *)
Theorem and_plain_kinds (a b : dtype) (sh : list Z) (hl hr : ir.value)
    (st : ir.builder) :
  plain_kind a = true -> plain_kind b = true ->
  and_ (block hl (tensor a sh)) (block hr (tensor b sh)) st
  = if is_int a && is_int b then
      let c := promoted_type a b in
      let st1 := st ++ promote_instr a c hl sh in
      let st2 := st1 ++ promote_instr b c hr sh in
      (Return (block (ir.res (List.length st2)) (tensor c sh)),
       st2 ++ [ir.create_and (promoted a c hl (List.length st))
                             (promoted b c hr (List.length st1))])
    else (Raise (IncompatibleTypeErrorimpl a b), st).
Proof. apply and_plain. Qed.

Lemma and_plain_kinds_witness :
  plain_kind int1 = true /\ plain_kind uint8 = true /\
  and_ (block (ir.arg 0) (block_type int1 [4]))
       (block (ir.arg 1) (block_type uint8 [4])) []
  = (Return (block (ir.res 1) (block_type uint8 [4])),
     [ir.create_int_cast (ir.arg 0) (block_type uint8 [4]) true;
      ir.create_and (ir.res 0) (ir.arg 1)])
  /\ and_ (block (ir.arg 0) (block_type int32 [4]))
          (block (ir.arg 1) (block_type float32 [4])) []
     = (Raise (IncompatibleTypeErrorimpl int32 float32), []).
Proof.
  split; [reflexivity|]. split; [reflexivity|]. split.
  - exact (and_plain_kinds int1 uint8 [4] (ir.arg 0) (ir.arg 1) []
             eq_refl eq_refl).
  - exact (and_plain_kinds int32 float32 [4] (ir.arg 0) (ir.arg 1) []
             eq_refl eq_refl).
Defined.

(** ** Operators and pointers *)

Lemma binary_op_type_checking_impl_pointer (a b : dtype) (sh : list Z)
    (hl hr : ir.value) (arithmetic_check div_or_mod : bool)
    (st : ir.builder) :
  is_kind a = true -> is_kind b = true -> is_ptr a || is_ptr b = true ->
  binary_op_type_checking_impl (block hl (tensor a sh)) (block hr (tensor b sh))
    false false arithmetic_check div_or_mod st
  = (Raise (if is_ptr a then IncompatibleTypeErrorimpl a b
            else IncompatibleTypeErrorimpl b a), st).
Proof.
  intros Ka Kb P.
  unfold binary_op_type_checking_impl, binary_op_type_checking_impl_with, bind.
  rewrite broadcast_impl_value_same_shape by assumption.
  cbn [type_of ret]. rewrite !scalar_tensor by assumption.
  destruct a; try discriminate Ka; destruct b; try discriminate Kb;
    try discriminate P; reflexivity.
Qed.

(** X21 (operators that take no pointer).  On two operands of one
    shape, one of which at least is a pointer, [truediv], [mod], [and_],
    [less_than] and [greater_equal] all raise
    [IncompatibleTypeErrorimpl] - on the left kind and the right kind if
    the left operand is a pointer, on the right kind and the left kind
    otherwise - and emit nothing. *)
Theorem operators_refuse_pointers (a b : dtype) (sh : list Z)
    (hl hr : ir.value) (st : ir.builder) :
  is_kind a = true -> is_kind b = true -> is_ptr a || is_ptr b = true ->
  let x := block hl (tensor a sh) in
  let y := block hr (tensor b sh) in
  let refused :=
    (@Raise pyobj (if is_ptr a then IncompatibleTypeErrorimpl a b
                   else IncompatibleTypeErrorimpl b a), st) in
  truediv x y st = refused
  /\ mod_ x y st = refused
  /\ and_ x y st = refused
  /\ less_than x y st = refused
  /\ greater_equal x y st = refused.
Proof.
  intros Ka Kb P x y refused. unfold x, y, refused.
  unfold truediv, mod_, and_, bitwise_op_type_checking_impl, less_than,
    greater_equal, bind.
  rewrite !binary_op_type_checking_impl_pointer by assumption.
  repeat split.
Qed.

Lemma operators_refuse_pointers_witness :
  is_kind int32 = true /\ is_kind (pointer_type float32 1) = true /\
  is_ptr int32 || is_ptr (pointer_type float32 1) = true /\
  mod_ (block (ir.arg 0) int32) (block (ir.arg 1) (pointer_type float32 1)) []
  = (Raise (IncompatibleTypeErrorimpl (pointer_type float32 1) int32), []).
Proof.
  repeat (split; [reflexivity|]).
  exact (proj1 (proj2 (operators_refuse_pointers int32 (pointer_type float32 1)
                         [] (ir.arg 0) (ir.arg 1) []
                         eq_refl eq_refl eq_refl))).
Defined.

(** X22 (pointers in an addition).  On operands of one shape (two scalars,
    or two blocks of equal shape): adding two
    pointers of the same pointer type is accepted, and emits the address
    computation with the right pointer as the offset; adding a pointer and
    a floating operand, in either order, raises
    [IncompatibleTypeErrorimpl] on the pointer kind and the floating kind
    and emits nothing. *)
Theorem add_pointer_operands (e f : dtype) (space : Z) (sh : list Z)
    (p q : ir.value) (st : ir.builder) :
  is_floating f = true ->
  let ptr_ty := pointer_type e space in
  add (block p (tensor ptr_ty sh)) (block q (tensor ptr_ty sh)) st
  = (Return (block (ir.res (List.length st)) (tensor ptr_ty sh)),
     st ++ [ir.create_gep p [q]])
  /\ add (block p (tensor ptr_ty sh)) (block q (tensor f sh)) st
     = (Raise (IncompatibleTypeErrorimpl ptr_ty f), st)
  /\ add (block q (tensor f sh)) (block p (tensor ptr_ty sh)) st
     = (Raise (IncompatibleTypeErrorimpl ptr_ty f), st).
Proof.
  intros Ff ptr_ty. unfold ptr_ty.
  assert (Kf : is_kind f = true) by (destruct f; try discriminate Ff; reflexivity).
  unfold add, binary_op_type_checking_impl, binary_op_type_checking_impl_with,
    bind.
  rewrite !broadcast_impl_value_same_shape by (assumption || reflexivity).
  cbn [type_of ret]. rewrite !scalar_tensor by (assumption || reflexivity).
  cbn [check_ptr_type_impl is_ptr negb lift andb]. rewrite dtype_eqb_refl.
  cbn [negb andb is_floating orb is_fp16 is_bf16 is_fp32 is_fp64 type_of ret].
  rewrite !scalar_tensor by reflexivity.
  split; [destruct sh; reflexivity|].
  rewrite Ff. destruct f; try discriminate Ff; split; reflexivity.
Qed.

Lemma add_pointer_operands_witness :
  is_floating float32 = true /\
  add (block (ir.arg 0) (pointer_type int8 1))
      (block (ir.arg 1) (pointer_type int8 1)) []
  = (Return (block (ir.res 0) (pointer_type int8 1)),
     [ir.create_gep (ir.arg 0) [ir.arg 1]])
  /\ add (block (ir.arg 1) float32) (block (ir.arg 0) (pointer_type int8 1)) []
     = (Raise (IncompatibleTypeErrorimpl (pointer_type int8 1) float32), []).
Proof.
  pose proof (add_pointer_operands int8 float32 1 [] (ir.arg 0) (ir.arg 1) []
                eq_refl) as H.
  cbv zeta in H. destruct H as (H1 & _ & H3).
  split; [reflexivity|]. split; [exact H1 | exact H3].
Defined.

(** Across ranks the floating operand of rank 0 is retyped with the type
    of the block of pointers before the kinds are read, and the addition
    is accepted as an address computation. *)
Lemma add_pointer_block_scalar_float :
  add (block (ir.arg 0) (block_type (pointer_type float32 1) [128]))
      (block (ir.arg 1) float32) []
  = (Return (block (ir.res 1) (block_type (pointer_type float32 1) [128])),
     [ir.create_splat (ir.arg 1) [128];
      ir.create_gep (ir.arg 0) [ir.res 0]]).
Proof. vm_compute; reflexivity. Qed.

(** ** More on loads *)

Lemma broadcast_impl_shape_same (e : dtype) (z : Z) (sh : list Z)
    (h : ir.value) (st : ir.builder) :
  broadcast_impl_shape (block h (block_type e (z :: sh))) (z :: sh) st
  = (Return (block h (block_type e (z :: sh))), st).
Proof.
  unfold broadcast_impl_shape, bind.
  cbn [type_of ret is_block negb get_block_shapes lift].
  rewrite Nat.eqb_refl, shape_eqb_refl. reflexivity.
Qed.

(** X23 (a plain load and its hints).  Through a block of pointers, with
    neither mask nor fill and with any recognised cache modifier and
    eviction policy, [load] emits exactly one load carrying the two hints
    and the volatile flag, and returns a block of the pointee kind; for
    pointers to booleans the pointer is first bitcast to a pointer to
    Int8, and the block returned has the kind Int8. *)
Theorem load_without_mask_or_fill (e : dtype) (space z : Z) (sh : list Z)
    (p : ir.value) (cache_modifier eviction_policy : option string)
    (cache : ir.CACHE_MODIFIER.t) (eviction : ir.EVICTION_POLICY.t)
    (is_volatile : bool) (st : ir.builder) :
  In (cache_modifier, cache) cache_modifiers ->
  In (eviction_policy, eviction) eviction_policies ->
  load (block p (block_type (pointer_type e space) (z :: sh))) None None
       cache_modifier eviction_policy is_volatile st
  = if dtype_eqb e int1 then
      (Return (block (ir.res (S (List.length st))) (block_type int8 (z :: sh))),
       st ++ [ir.create_bitcast p
                (block_type (pointer_type int8 space) (z :: sh));
              ir.create_load (ir.res (List.length st)) cache eviction
                is_volatile])
    else
      (Return (block (ir.res (List.length st)) (block_type e (z :: sh))),
       st ++ [ir.create_load p cache eviction is_volatile]).
Proof.
  intros Hc He.
  unfold load, bind. cbn [type_of ret scalar is_ptr negb is_block].
  cbn [lift element].
  destruct (dtype_eqb e int1) eqn:E.
  - apply dtype_eqb_eq in E; subst e.
    cbn [address_space lift]. rewrite cast_unfold.
    rewrite (cast_body_ptr_ptr _ int1 int8 space space (z :: sh)) by reflexivity.
    cbn [tensor ret type_of is_block negb get_block_shapes lift].
    simpl in Hc, He.
    destruct Hc as [Hc|[Hc|[Hc|[Hc|[]]]]]; injection Hc as <- <-;
      destruct He as [He|[He|[He|[He|[]]]]]; injection He as <- <-;
      cbn; rewrite <- app_assoc, length_app; cbn;
      rewrite Nat.add_1_r; reflexivity.
  - simpl in Hc, He.
    destruct Hc as [Hc|[Hc|[Hc|[Hc|[]]]]]; injection Hc as <- <-;
      destruct He as [He|[He|[He|[He|[]]]]]; injection He as <- <-;
      reflexivity.
Qed.

Lemma load_without_mask_or_fill_witness :
  In (Some ".cg", ir.CACHE_MODIFIER.CG) cache_modifiers /\
  In (Some "evict_last", ir.EVICTION_POLICY.EVICT_LAST) eviction_policies /\
  load (block (ir.arg 0) (block_type (pointer_type float32 1) [64])) None None
       (Some ".cg") (Some "evict_last") true []
  = (Return (block (ir.res 0) (block_type float32 [64])),
     [ir.create_load (ir.arg 0) ir.CACHE_MODIFIER.CG
        ir.EVICTION_POLICY.EVICT_LAST true]).
Proof.
  split; [simpl; tauto|]. split; [simpl; tauto|].
  exact (load_without_mask_or_fill float32 1 64 [] (ir.arg 0)
           (Some ".cg") (Some "evict_last") ir.CACHE_MODIFIER.CG
           ir.EVICTION_POLICY.EVICT_LAST true []
           ltac:(simpl; tauto) ltac:(simpl; tauto)).
Defined.

(** X24 (a load through a scalar pointer).  Through a pointer of rank 0,
    with or without a mask and with no fill and no hints, [load] fails
    its assertion that the pointer is a block: no load is emitted (for a
    pointer to booleans the bitcast of the pointer is emitted first). *)
Theorem load_scalar_pointer_asserts (e : dtype) (space : Z) (p : ir.value)
    (mask : option pyobj) (is_volatile : bool) (st : ir.builder) :
  load (block p (pointer_type e space)) mask None None None is_volatile st
  = (Raise AssertionError,
     if dtype_eqb e int1
     then st ++ [ir.create_bitcast p (pointer_type int8 space)]
     else st).
Proof.
  unfold load, bind. cbn [type_of ret scalar is_ptr negb is_block].
  cbn [lift element].
  destruct (dtype_eqb e int1) eqn:E.
  - apply dtype_eqb_eq in E; subst e.
    cbn [address_space lift]. rewrite cast_unfold.
    rewrite (cast_body_ptr_ptr _ int1 int8 space space []) by reflexivity.
    reflexivity.
  - reflexivity.
Qed.

(** X25 (a masked load with a fill).  Through a block of pointers to a
    kind other than the boolean, with a mask block and a fill block of
    the pointer's shape, the fill being of the pointee kind, [load] emits
    exactly one masked load on the three handles and returns a block of
    the pointee kind.  The kind of the mask is not examined. *)
Theorem load_masked_with_fill (e km : dtype) (space z : Z) (sh : list Z)
    (p m o : ir.value) (is_volatile : bool) (st : ir.builder) :
  is_kind e = true -> dtype_eqb e int1 = false ->
  load (block p (block_type (pointer_type e space) (z :: sh)))
       (Some (block m (block_type km (z :: sh))))
       (Some (block o (block_type e (z :: sh)))) None None is_volatile st
  = (Return (block (ir.res (List.length st)) (block_type e (z :: sh))),
     st ++ [ir.create_masked_load p m o ir.CACHE_MODIFIER.NONE
              ir.EVICTION_POLICY.NORMAL is_volatile]).
Proof.
  intros Ke He. unfold load, bind.
  cbn [type_of ret scalar is_ptr negb is_block get_block_shapes lift element].
  rewrite broadcast_impl_shape_same. cbn -[cast broadcast_impl_shape].
  rewrite broadcast_impl_shape_same. cbn -[cast].
  rewrite cast_unfold.
  rewrite (cast_body_same _ e (z :: sh)) by assumption.
  rewrite He. reflexivity.
Qed.

Lemma load_masked_with_fill_witness :
  is_kind float32 = true /\ dtype_eqb float32 int1 = false /\
  load (block (ir.arg 0) (block_type (pointer_type float32 1) [64]))
       (Some (block (ir.arg 1) (block_type int1 [64])))
       (Some (block (ir.arg 2) (block_type float32 [64]))) None None false []
  = (Return (block (ir.res 0) (block_type float32 [64])),
     [ir.create_masked_load (ir.arg 0) (ir.arg 1) (ir.arg 2)
        ir.CACHE_MODIFIER.NONE ir.EVICTION_POLICY.NORMAL false]).
Proof.
  split; [reflexivity|]. split; [reflexivity|].
  exact (load_masked_with_fill float32 int1 1 64 [] (ir.arg 0) (ir.arg 1)
           (ir.arg 2) false [] eq_refl eq_refl).
Defined.

(** ** Integer atomic max *)

Lemma broadcast_impl_shape_tensor (k : dtype) (z : Z) (sh : list Z)
    (h : ir.value) (st : ir.builder) :
  broadcast_impl_shape (block h (tensor k (z :: sh))) (z :: sh) st
  = (Return (block h (tensor k (z :: sh))), st).
Proof. apply broadcast_impl_shape_same. Qed.

(** X26 (atomic max on integers).  Through a pointer to an integer kind
    [e], on a value of an integer kind and a mask of the pointer's shape,
    [atomic_max] casts the value to [e] if its kind differs, and emits
    one atomic read-modify-write on the handles of pointer, value and
    mask: the signed maximum if [e] is signed, the unsigned maximum
    otherwise.  The result is typed with [e] at that shape; the kind of
    the mask is not examined. *)
Theorem atomic_max_integer (e a km : dtype) (space : Z) (sh : list Z)
    (p v m : ir.value) (st : ir.builder) :
  is_int e = true -> is_int a = true -> is_kind km = true ->
  atomic_max (block p (tensor (pointer_type e space) sh))
             (block v (tensor a sh)) (Some (block m (tensor km sh))) st
  = let st1 := st ++ promote_instr a e v sh in
    (Return (block (ir.res (List.length st1)) (tensor e sh)),
     st1 ++ [ir.create_atomic_rmw
               (if is_int_signed e then ir.ATOMIC_OP.MAX
                else ir.ATOMIC_OP.UMAX)
               p (promoted a e v (List.length st)) m]).
Proof.
  intros He Ha Km.
  pose proof (is_int_kind e He) as Ke.
  unfold atomic_max, atom_red_typechecking_impl, bind.
  cbn [type_of ret]. rewrite scalar_tensor by reflexivity.
  cbn [is_ptr negb]. rewrite is_block_tensor by reflexivity.
  destruct sh as [|z sh].
  - change (tensor (pointer_type e space) []) with (pointer_type e space).
    cbn [ret lift element scalar].
    rewrite cast_promote by assumption.
    cbn [ret type_of]. rewrite scalar_tensor by assumption.
    rewrite He. cbv zeta.
    destruct (is_int_signed e); reflexivity.
  - cbn [tensor get_block_shapes lift ret].
    rewrite (broadcast_impl_shape_tensor km z sh).
    cbn -[cast broadcast_impl_shape tensor].
    rewrite (broadcast_impl_shape_tensor a z sh).
    cbn -[cast tensor].
    rewrite cast_promote by assumption.
    cbn [ret type_of]. rewrite scalar_tensor by assumption.
    rewrite He. cbv zeta.
    destruct (is_int_signed e); reflexivity.
Qed.

Lemma atomic_max_integer_witness :
  is_int uint32 = true /\ is_int uint8 = true /\ is_kind int1 = true /\
  atomic_max (block (ir.arg 0) (block_type (pointer_type uint32 1) [4]))
             (block (ir.arg 1) (block_type uint8 [4]))
             (Some (block (ir.arg 2) (block_type int1 [4]))) []
  = (Return (block (ir.res 1) (block_type uint32 [4])),
     [ir.create_int_cast (ir.arg 1) (block_type uint32 [4]) false;
      ir.create_atomic_rmw ir.ATOMIC_OP.UMAX (ir.arg 0) (ir.res 0) (ir.arg 2)]).
Proof.
  repeat (split; [reflexivity|]).
  exact (atomic_max_integer uint32 uint8 int1 1 [4] (ir.arg 0) (ir.arg 1)
           (ir.arg 2) [] eq_refl eq_refl eq_refl).
Defined.

(** ** More on reductions *)

(** X27 (reductions of floating operands).  On an operand of a floating
    kind, BFloat16 included, [min], [max] and [sum] emit one reduction
    with the floating operation on the operand itself, with no cast, and
    return its bare result; [xor_sum] raises [ValueError] and emits
    nothing. *)
Theorem reduce_floating (k : dtype) (sh : list Z) (h : ir.value) (axis : Z)
    (st : ir.builder) :
  is_floating k = true ->
  let reduced op :=
    (@Return pyobj (raw (ir.res (List.length st))),
     st ++ [ir.create_reduce h op axis]) in
  min (block h (tensor k sh)) axis st = reduced ir.REDUCE_OP.FMIN
  /\ max (block h (tensor k sh)) axis st = reduced ir.REDUCE_OP.FMAX
  /\ sum (block h (tensor k sh)) axis st = reduced ir.REDUCE_OP.FADD
  /\ xor_sum (block h (tensor k sh)) axis st
     = (Raise (ValueError [Str "xor_sum only supported for integers"]), st).
Proof.
  intros Hk reduced. unfold reduced.
  destruct k; try discriminate Hk; destruct sh; repeat split.
Qed.

Lemma reduce_floating_witness :
  is_floating bfloat16 = true /\
  sum (block (ir.arg 0) (block_type bfloat16 [8; 8])) 1 []
  = (Return (raw (ir.res 0)),
     [ir.create_reduce (ir.arg 0) ir.REDUCE_OP.FADD 1])
  /\ xor_sum (block (ir.arg 0) (block_type bfloat16 [8; 8])) 1 []
     = (Raise (ValueError [Str "xor_sum only supported for integers"]), []).
Proof.
  pose proof (reduce_floating bfloat16 [8; 8] (ir.arg 0) 1 [] eq_refl) as H.
  cbv zeta in H. destruct H as (_ & _ & Hs & Hx).
  split; [reflexivity|]. split; [exact Hs | exact Hx].
Defined.

(** X28 (reductions of 64-bit and of pointer operands).  On an operand
    of a 64-bit integer kind, signed or unsigned, [min], [max], [sum] and
    [xor_sum] emit the integer reduction on the operand itself, with no
    cast.  On an operand of a pointer kind, [min], [max] and [sum] fail
    their final assertion and [xor_sum] raises [ValueError]; nothing is
    emitted. *)
Theorem reduce_wide_and_pointer (sn : SIGNEDNESS) (e : dtype) (space : Z)
    (sh : list Z) (h : ir.value) (axis : Z) (st : ir.builder) :
  let wide := block h (tensor (int_ W64 sn) sh) in
  let ptr := block h (tensor (pointer_type e space) sh) in
  let reduced op :=
    (@Return pyobj (raw (ir.res (List.length st))),
     st ++ [ir.create_reduce h op axis]) in
  min wide axis st = reduced ir.REDUCE_OP.MIN
  /\ max wide axis st = reduced ir.REDUCE_OP.MAX
  /\ sum wide axis st = reduced ir.REDUCE_OP.ADD
  /\ xor_sum wide axis st = reduced ir.REDUCE_OP.XOR
  /\ min ptr axis st = (Raise AssertionError, st)
  /\ max ptr axis st = (Raise AssertionError, st)
  /\ sum ptr axis st = (Raise AssertionError, st)
  /\ xor_sum ptr axis st
     = (Raise (ValueError [Str "xor_sum only supported for integers"]), st).
Proof.
  intros wide ptr reduced. unfold wide, ptr, reduced.
  destruct sn, sh; repeat split.
Qed.

(** ** Selection *)

Lemma computation_type_impl_same (a : dtype) :
  plain_kind a = true -> is_bf16 a = false ->
  computation_type_impl a a false = Return a.
Proof.
  intros Ha Ba.
  destruct a as [| wa sa | | | | | ea aa | ea sha]; try discriminate Ha;
    try discriminate Ba; try destruct wa, sa; reflexivity.
Qed.

(** X29 (the type of a selection).  On a boolean condition and two
    operands of one integer or floating kind other than BFloat16, all of
    one shape, [where] emits one select on the three handles, and the
    value it returns is typed with the kind alone, without the shape of
    the operands. *)
Theorem where_result_type (a : dtype) (sh : list Z) (c x y : ir.value)
    (st : ir.builder) :
  plain_kind a = true -> is_bf16 a = false ->
  where_ (block c (tensor int1 sh)) (block x (tensor a sh))
         (block y (tensor a sh)) st
  = (Return (block (ir.res (List.length st)) a),
     st ++ [ir.create_select c x y]).
Proof.
  intros Ha Ba. pose proof (plain_kind_is_kind a Ha) as Ka.
  unfold where_, bind.
  rewrite cast_unfold, cast_body_same by reflexivity.
  cbn [type_of ret]. rewrite is_block_tensor by reflexivity.
  destruct sh as [|z sh].
  - cbn [ret type_of lift].
    rewrite !scalar_tensor by assumption.
    rewrite computation_type_impl_same by assumption.
    cbn [rbind].
    rewrite cast_unfold, (cast_body_same _ a []) by assumption.
    cbn -[cast tensor].
    rewrite cast_unfold, (cast_body_same _ a []) by assumption.
    reflexivity.
  - cbn [tensor get_block_shapes lift ret].
    rewrite (broadcast_impl_shape_tensor a z sh).
    cbn -[cast broadcast_impl_shape tensor computation_type_impl].
    rewrite (broadcast_impl_shape_tensor a z sh).
    cbn -[cast tensor computation_type_impl].
    rewrite scalar_tensor by assumption.
    rewrite computation_type_impl_same by assumption.
    cbn -[cast tensor].
    rewrite cast_unfold, (cast_body_same _ a (z :: sh)) by assumption.
    cbn -[cast tensor].
    rewrite cast_unfold, (cast_body_same _ a (z :: sh)) by assumption.
    reflexivity.
Qed.

Lemma where_result_type_witness :
  plain_kind float32 = true /\ is_bf16 float32 = false /\
  where_ (block (ir.arg 0) (block_type int1 [16]))
         (block (ir.arg 1) (block_type float32 [16]))
         (block (ir.arg 2) (block_type float32 [16])) []
  = (Return (block (ir.res 0) float32),
     [ir.create_select (ir.arg 0) (ir.arg 1) (ir.arg 2)]).
Proof.
  split; [reflexivity|]. split; [reflexivity|].
  exact (where_result_type float32 [16] (ir.arg 0) (ir.arg 1) (ir.arg 2) []
           eq_refl eq_refl).
Defined.
